(** * State reconciliation of the logged-in account (discord.js fork)

    A shallow embedding of
    - [src/structures/ClientUser.js]        ([ClientUser._patch], [ClientUser.edit]),
    - [src/structures/ClientApplication.js] ([ClientApplication._patch]),
    - the READY handler                     ([module.exports = (client, { d: data }, shard) => ...]),
    - [UserNoteUpdateAction.handle],
    followed by the properties of the specification that these functions decide.

    JavaScript objects are records, mutation is explicit state passing, and the
    classes that the sources only inherit from or call ([User], [Application],
    the user store, the REST client) are interfaces. *)

From Stdlib Require Import List String ZArith Bool Lia.
Import ListNotations.
Open Scope string_scope.

(* ===================================================================== *)
(** * Part I: the model                                                    *)
(* ===================================================================== *)

(** ** JavaScript values *)

Module JS.

(** The primitive values that occur in the payloads. *)
Inductive value : Type :=
| VUndefined
| VNull
| VBool (b : bool)
| VNum (n : Z)
| VStr (s : string).

(** Reading an object-valued property: the key is missing (or holds
    [undefined]), holds [null], or holds an object / array. *)
Inductive ref (A : Type) : Type :=
| RUndefined
| RNull
| RObj (a : A).
Arguments RUndefined {A}.
Arguments RNull {A}.
Arguments RObj {A} a.

(** [ToBoolean]. *)
Definition truthy (v : value) : bool :=
  match v with
  | VUndefined | VNull => false
  | VBool b => b
  | VNum n => negb (n =? 0)%Z
  | VStr s => negb (s =? "")
  end.

(** Objects and arrays are always truthy, [{}] and [[]] included. *)
Definition truthy_ref {A} (r : ref A) : bool :=
  match r with
  | RObj _ => true
  | _ => false
  end.

(** [typeof v]. *)
Definition typeof (v : value) : string :=
  match v with
  | VUndefined => "undefined"
  | VNull => "object"
  | VBool _ => "boolean"
  | VNum _ => "number"
  | VStr _ => "string"
  end.

(** [data.key] where [None] stands for ['key' in data === false]. *)
Definition prop (o : option value) : value :=
  match o with
  | Some v => v
  | None => VUndefined
  end.

(** The result of a call that may throw, or of a promise once settled. *)
Inductive outcome (E A : Type) : Type :=
| Thrown (msg : string)
| Rejected (e : E)
| Fulfilled (a : A).
Arguments Thrown {E A} msg.
Arguments Rejected {E A} e.
Arguments Fulfilled {E A} a.

End JS.

(** ** Collection *)

Module Collection.

(** Modelled from the spec: [util/Collection] (a [Map] subclass) is not
    among the sources.  Section 4.3: [set] overwrites or inserts, [get] on a
    missing key reports "not found", and the entries keep their insertion
    order.  Keys are snowflake strings. *)
Definition t (V : Type) : Type := list (string * V).

(** [new Collection()]. *)
Definition empty {V : Type} : t V := [].

Fixpoint get {V : Type} (k : string) (m : t V) : option V :=
  match m with
  | [] => None
  | (k', v) :: r => if k' =? k then Some v else get k r
  end.

Definition has {V : Type} (k : string) (m : t V) : bool :=
  match get k m with
  | Some _ => true
  | None => false
  end.

(** An existing key keeps its position; a new key goes last. *)
Fixpoint set {V : Type} (k : string) (v : V) (m : t V) : t V :=
  match m with
  | [] => [(k, v)]
  | (k', v') :: r => if k' =? k then (k, v) :: r else (k', v') :: set k v r
  end.

Fixpoint delete {V : Type} (k : string) (m : t V) : t V :=
  match m with
  | [] => []
  | (k', v') :: r => if k' =? k then r else (k', v') :: delete k r
  end.

Definition keys {V : Type} (m : t V) : list string := map fst m.

(** [map.get(k)] as JavaScript sees it: [undefined] when there is no entry. *)
Definition get_value (k : string) (m : t JS.value) : JS.value :=
  match get k m with
  | Some v => v
  | None => JS.VUndefined
  end.

End Collection.

(** A raw JSON object of a payload, as an ordered key/value list. *)
Definition JSObject : Type := Collection.t JS.value.

(** ** The inherited [User] class *)

(** [ClientUser extends Structures.get('User')]; [structures/User.js] is not
    among the sources, so the inherited part of the object and the inherited
    [_patch] are an interface. *)
Class UserClass : Type := {
  User : Type;                              (* the inherited fields of an object *)
  UserData : Type;                          (* a user payload, as far as [User] reads it *)
  User_blank : User;                        (* the fields of a freshly allocated object *)
  User_patch : UserData -> User -> User;    (* [super._patch(data)] *)
  User_id : User -> string;                 (* [this.id] *)
  User_bot : User -> JS.value;              (* [this.bot] *)
  UserData_id : UserData -> string          (* [data.id] *)
}.

(** ** Payloads *)

Module Data.

(** [user_guild_settings] entry. *)
Record GuildSettings : Type := {
  guild_id : string;
  overrides : JSObject
}.

(** The user payload handed to [ClientUser._patch].  An [option] field is
    [None] when the key is not in the object. *)
Record t {UC : UserClass} : Type := {
  base : UserData;
  verified : option JS.value;
  email : option JS.value;
  premium : option JS.value;
  mfa_enabled : option JS.value;
  mobile : option JS.value;
  user_settings : JS.ref JSObject;
  user_guild_settings : JS.ref (list GuildSettings);
  token : option JS.value
}.

(** [relationships] entry. *)
Record Relation {UC : UserClass} : Type := {
  rel_user : UserData;     (* [relation.user] *)
  rel_type : Z             (* [relation.type] *)
}.

(** [guilds] entry. *)
Record Guild : Type := {
  g_id : string;
  shardID : JS.value;
  g_raw : JSObject
}.

(** The READY packet's [d]. *)
Record Ready {UC : UserClass} : Type := {
  user : t;
  guilds : list Guild;
  relationships : list Relation;
  notes : JS.ref (list (string * string));   (* in [for ... in] order *)
  r_user_settings : JS.ref JSObject;
  r_user_guild_settings : JS.ref (list GuildSettings)
}.

Definition set_user_settings {UC : UserClass} (v : JS.ref JSObject) (d : t) : t :=
  {| base := base d; verified := verified d; email := email d;
     premium := premium d; mfa_enabled := mfa_enabled d; mobile := mobile d;
     user_settings := v; user_guild_settings := user_guild_settings d;
     token := token d |}.

Definition set_user_guild_settings {UC : UserClass}
    (v : JS.ref (list GuildSettings)) (d : t) : t :=
  {| base := base d; verified := verified d; email := email d;
     premium := premium d; mfa_enabled := mfa_enabled d; mobile := mobile d;
     user_settings := user_settings d; user_guild_settings := v;
     token := token d |}.

Definition set_shardID (v : JS.value) (g : Guild) : Guild :=
  {| g_id := g_id g; shardID := v; g_raw := g_raw g |}.

(** The payload with one key replaced. *)
Definition set_base {UC : UserClass} (v : UserData) (d : t) : t :=
  {| base := v; verified := verified d; email := email d; premium := premium d;
     mfa_enabled := mfa_enabled d; mobile := mobile d; user_settings := user_settings d;
     user_guild_settings := user_guild_settings d; token := token d |}.

Definition set_verified {UC : UserClass} (v : option JS.value) (d : t) : t :=
  {| base := base d; verified := v; email := email d; premium := premium d;
     mfa_enabled := mfa_enabled d; mobile := mobile d; user_settings := user_settings d;
     user_guild_settings := user_guild_settings d; token := token d |}.

Definition set_email {UC : UserClass} (v : option JS.value) (d : t) : t :=
  {| base := base d; verified := verified d; email := v; premium := premium d;
     mfa_enabled := mfa_enabled d; mobile := mobile d; user_settings := user_settings d;
     user_guild_settings := user_guild_settings d; token := token d |}.

Definition set_premium {UC : UserClass} (v : option JS.value) (d : t) : t :=
  {| base := base d; verified := verified d; email := email d; premium := v;
     mfa_enabled := mfa_enabled d; mobile := mobile d; user_settings := user_settings d;
     user_guild_settings := user_guild_settings d; token := token d |}.

Definition set_mfa_enabled {UC : UserClass} (v : option JS.value) (d : t) : t :=
  {| base := base d; verified := verified d; email := email d; premium := premium d;
     mfa_enabled := v; mobile := mobile d; user_settings := user_settings d;
     user_guild_settings := user_guild_settings d; token := token d |}.

Definition set_mobile {UC : UserClass} (v : option JS.value) (d : t) : t :=
  {| base := base d; verified := verified d; email := email d; premium := premium d;
     mfa_enabled := mfa_enabled d; mobile := v; user_settings := user_settings d;
     user_guild_settings := user_guild_settings d; token := token d |}.

Definition set_token {UC : UserClass} (v : option JS.value) (d : t) : t :=
  {| base := base d; verified := verified d; email := email d; premium := premium d;
     mfa_enabled := mfa_enabled d; mobile := mobile d; user_settings := user_settings d;
     user_guild_settings := user_guild_settings d; token := v |}.

End Data.

(** ** Objects and the client *)

Module State.

(** [new ClientUserSettings(this, data.user_settings)]. *)
Inductive ClientUserSettings : Type :=
| new_ClientUserSettings (data : JSObject).

(** [new ClientUserGuildSettings(this.client, settings)]. *)
Inductive ClientUserGuildSettings : Type :=
| new_ClientUserGuildSettings (data : Data.GuildSettings).

(** A reference to a user object of the user store, named by the id under
    which the store holds it. *)
Inductive UserRef : Type :=
| ref_user (id : string).

Definition ref_id (r : UserRef) : string :=
  match r with ref_user id => id end.

(** The fields of the [ClientUser] object. *)
Record ClientUser {UC : UserClass} : Type := {
  inherited : User;
  _typing : Collection.t JS.value;
  verified : JS.value;
  email : JS.value;
  friends : Collection.t UserRef;
  blocked : Collection.t UserRef;
  notes : Collection.t JS.value;
  premium : JS.value;
  mfaEnabled : JS.value;
  mobile : JS.value;
  settings : option ClientUserSettings;          (* [None] is [null] *)
  guildSettings : Collection.t ClientUserGuildSettings
}.

(** What [client.users.cache] holds under a key: the [ClientUser] object
    itself (an alias of [client.user]) or a plain [User]. *)
Inductive Cached {UC : UserClass} : Type :=
| CachedClientUser
| CachedUser (u : User).

(** The client, as far as the modelled code touches it.  [constructed]
    counts the [ClientUser] objects built so far. *)
Record Client {UC : UserClass} : Type := {
  user : option ClientUser;                      (* [client.user] *)
  token : JS.value;                              (* [client.token] *)
  users : Collection.t Cached;               (* [client.users.cache] *)
  guilds : Collection.t Data.Guild;              (* [client.guilds] *)
  constructed : nat
}.

(** [client.user = u]. *)
Definition set_user {UC : UserClass} (u : option ClientUser) (c : Client) : Client :=
  {| user := u; token := token c; users := users c; guilds := guilds c;
     constructed := constructed c |}.

(** [client.token = v]. *)
Definition set_token {UC : UserClass} (v : JS.value) (c : Client) : Client :=
  {| user := user c; token := v; users := users c; guilds := guilds c;
     constructed := constructed c |}.

Definition set_users {UC : UserClass} (m : Collection.t Cached) (c : Client) : Client :=
  {| user := user c; token := token c; users := m; guilds := guilds c;
     constructed := constructed c |}.

Definition set_guilds {UC : UserClass} (m : Collection.t Data.Guild) (c : Client) : Client :=
  {| user := user c; token := token c; users := users c; guilds := m;
     constructed := constructed c |}.

Definition count_construction {UC : UserClass} (c : Client) : Client :=
  {| user := user c; token := token c; users := users c; guilds := guilds c;
     constructed := S (constructed c) |}.

(** The object before any constructor body has run: every own field reads
    [undefined]. *)
Definition blank {UC : UserClass} : ClientUser :=
  {| inherited := User_blank;
     _typing := Collection.empty;
     verified := JS.VUndefined;
     email := JS.VUndefined;
     friends := Collection.empty;
     blocked := Collection.empty;
     notes := Collection.empty;
     premium := JS.VUndefined;
     mfaEnabled := JS.VUndefined;
     mobile := JS.VUndefined;
     settings := None;
     guildSettings := Collection.empty |}.

Definition set_friends {UC : UserClass} (m : Collection.t UserRef) (u : ClientUser) : ClientUser :=
  {| inherited := inherited u; _typing := _typing u; verified := verified u;
     email := email u; friends := m; blocked := blocked u; notes := notes u;
     premium := premium u; mfaEnabled := mfaEnabled u; mobile := mobile u;
     settings := settings u; guildSettings := guildSettings u |}.

Definition set_blocked {UC : UserClass} (m : Collection.t UserRef) (u : ClientUser) : ClientUser :=
  {| inherited := inherited u; _typing := _typing u; verified := verified u;
     email := email u; friends := friends u; blocked := m; notes := notes u;
     premium := premium u; mfaEnabled := mfaEnabled u; mobile := mobile u;
     settings := settings u; guildSettings := guildSettings u |}.

Definition set_notes {UC : UserClass} (m : Collection.t JS.value) (u : ClientUser) : ClientUser :=
  {| inherited := inherited u; _typing := _typing u; verified := verified u;
     email := email u; friends := friends u; blocked := blocked u; notes := m;
     premium := premium u; mfaEnabled := mfaEnabled u; mobile := mobile u;
     settings := settings u; guildSettings := guildSettings u |}.

Definition set_typing {UC : UserClass} (m : Collection.t JS.value) (u : ClientUser) : ClientUser :=
  {| inherited := inherited u; _typing := m; verified := verified u;
     email := email u; friends := friends u; blocked := blocked u; notes := notes u;
     premium := premium u; mfaEnabled := mfaEnabled u; mobile := mobile u;
     settings := settings u; guildSettings := guildSettings u |}.

(** The object with one field replaced. *)
Definition set_inherited {UC : UserClass} (x : User) (u : ClientUser) : ClientUser :=
  {| inherited := x; _typing := _typing u; verified := verified u; email := email u;
     friends := friends u; blocked := blocked u; notes := notes u; premium := premium u;
     mfaEnabled := mfaEnabled u; mobile := mobile u; settings := settings u;
     guildSettings := guildSettings u |}.

Definition set_verified {UC : UserClass} (x : JS.value) (u : ClientUser) : ClientUser :=
  {| inherited := inherited u; _typing := _typing u; verified := x; email := email u;
     friends := friends u; blocked := blocked u; notes := notes u; premium := premium u;
     mfaEnabled := mfaEnabled u; mobile := mobile u; settings := settings u;
     guildSettings := guildSettings u |}.

Definition set_email {UC : UserClass} (x : JS.value) (u : ClientUser) : ClientUser :=
  {| inherited := inherited u; _typing := _typing u; verified := verified u; email := x;
     friends := friends u; blocked := blocked u; notes := notes u; premium := premium u;
     mfaEnabled := mfaEnabled u; mobile := mobile u; settings := settings u;
     guildSettings := guildSettings u |}.

Definition set_premium {UC : UserClass} (x : JS.value) (u : ClientUser) : ClientUser :=
  {| inherited := inherited u; _typing := _typing u; verified := verified u;
     email := email u; friends := friends u; blocked := blocked u; notes := notes u;
     premium := x; mfaEnabled := mfaEnabled u; mobile := mobile u;
     settings := settings u; guildSettings := guildSettings u |}.

Definition set_mfaEnabled {UC : UserClass} (x : JS.value) (u : ClientUser) : ClientUser :=
  {| inherited := inherited u; _typing := _typing u; verified := verified u;
     email := email u; friends := friends u; blocked := blocked u; notes := notes u;
     premium := premium u; mfaEnabled := x; mobile := mobile u; settings := settings u;
     guildSettings := guildSettings u |}.

Definition set_mobile {UC : UserClass} (x : JS.value) (u : ClientUser) : ClientUser :=
  {| inherited := inherited u; _typing := _typing u; verified := verified u;
     email := email u; friends := friends u; blocked := blocked u; notes := notes u;
     premium := premium u; mfaEnabled := mfaEnabled u; mobile := x;
     settings := settings u; guildSettings := guildSettings u |}.

Definition set_settings {UC : UserClass} (x : option ClientUserSettings) (u : ClientUser) : ClientUser :=
  {| inherited := inherited u; _typing := _typing u; verified := verified u;
     email := email u; friends := friends u; blocked := blocked u; notes := notes u;
     premium := premium u; mfaEnabled := mfaEnabled u; mobile := mobile u; settings := x;
     guildSettings := guildSettings u |}.

Definition set_guildSettings {UC : UserClass} (x : Collection.t ClientUserGuildSettings) (u : ClientUser) : ClientUser :=
  {| inherited := inherited u; _typing := _typing u; verified := verified u;
     email := email u; friends := friends u; blocked := blocked u; notes := notes u;
     premium := premium u; mfaEnabled := mfaEnabled u; mobile := mobile u;
     settings := settings u; guildSettings := x |}.

End State.

(** ** The user store *)

Module UserStore.
Import State.

(** Modelled from the spec: [client.users.add] (the user store is not among
    the sources).  Section 4.2, step 4: "resolve/insert the referenced user
    into the global user cache".  A user already cached under [data.id] is
    resolved; otherwise a [User] is built from the payload and inserted.
    The result refers to the user cached under [data.id]. *)
Definition add {UC : UserClass} (data : UserData) (c : Client) : Client * UserRef :=
  let id := UserData_id data in
  match Collection.get id (users c) with
  | Some _ => (c, ref_user id)
  | None =>
      (set_users (Collection.set id (CachedUser (User_patch data User_blank)) (users c)) c,
       ref_user id)
  end.

End UserStore.

(** ** [ClientUser] *)

Module ClientUser.
Import State.

(** [typeof v === 'boolean' ? v : null]. *)
Definition boolean_or_null (v : JS.value) : JS.value :=
  if JS.typeof v =? "boolean" then v else JS.VNull.

(** The loop over [data.user_guild_settings] (ClientUser.js, 96-101). *)
Definition build_guildSettings (l : list Data.GuildSettings)
    : Collection.t ClientUserGuildSettings :=
  fold_left
    (fun gs s => Collection.set (Data.guild_id s) (new_ClientUserGuildSettings s) gs)
    l Collection.empty.

(** [_patch(data)] (ClientUser.js, 21-104), with [this] and [this.client]
    passed and returned. *)
Definition _patch {UC : UserClass} (data : Data.t) (this : ClientUser) (client : Client)
    : ClientUser * Client :=
  let this' :=
    {| (* super._patch(data); *)
       inherited := User_patch (Data.base data) (inherited this);
       _typing := _typing this;
       (* if ('verified' in data) this.verified = data.verified; *)
       verified :=
         match Data.verified data with
         | Some v => v
         | None => verified this
         end;
       (* this.email = data.email; *)
       email := JS.prop (Data.email data);
       (* this.friends = new Collection(); *)
       friends := Collection.empty;
       (* this.blocked = new Collection(); *)
       blocked := Collection.empty;
       (* this.notes = new Collection(); *)
       notes := Collection.empty;
       (* this.premium = typeof data.premium === 'boolean' ? data.premium : null; *)
       premium := boolean_or_null (JS.prop (Data.premium data));
       (* if ('mfa_enabled' in data) { this.mfaEnabled = ... }
          else if (typeof this.mfaEnabled === 'undefined') { this.mfaEnabled = null; } *)
       mfaEnabled :=
         match Data.mfa_enabled data with
         | Some v => boolean_or_null v
         | None =>
             if JS.typeof (mfaEnabled this) =? "undefined" then JS.VNull
             else mfaEnabled this
         end;
       (* this.mobile = typeof data.mobile === 'boolean' ? data.mobile : null; *)
       mobile := boolean_or_null (JS.prop (Data.mobile data));
       (* this.settings = data.user_settings ? new ClientUserSettings(...) : null; *)
       settings :=
         match Data.user_settings data with
         | JS.RObj s => Some (new_ClientUserSettings s)
         | _ => None
         end;
       (* this.guildSettings = new Collection();
          if (data.user_guild_settings) for (const settings of ...) ...set(...) *)
       guildSettings :=
         match Data.user_guild_settings data with
         | JS.RObj l => build_guildSettings l
         | _ => Collection.empty
         end |} in
  (* if (data.token) this.client.token = data.token; *)
  let client' :=
    if JS.truthy (JS.prop (Data.token data))
    then set_token (JS.prop (Data.token data)) client
    else client in
  (this', client').

(** [new ClientUser(client, data)] (ClientUser.js, 16-19).

    Modelled from the spec: the inherited constructor is not among the
    sources.  Section 4.2, step 2: the settings are attached to the user
    payload "before construction so the patch merger can populate
    [settings] and [guildSettings] in one pass", so [super(client, data)]
    runs [_patch(data)] on the fresh object; then [this._typing = new Map()]. *)
Definition new {UC : UserClass} (client : Client) (data : Data.t) : ClientUser * Client :=
  let (this, client) := _patch data blank (count_construction client) in
  (set_typing Collection.empty this, client).

(** The second argument of [edit]: a plain value, or an object with
    [mfaCode] and [password]. *)
Inductive Passcode : Type :=
| PassValue (v : JS.value)
| PassObject (mfaCode password : JS.value).

(** The body of the first [if] of [edit] (ClientUser.js, 116-123): the
    request data after the credentials have been written into it.  [None]
    when reading [passcode.mfaCode] throws ([typeof null] is ['object']). *)
Definition with_credentials (bot : JS.value) (data : JSObject) (passcode : Passcode)
    : option JSObject :=
  if negb (JS.truthy bot) then
    match passcode with
    | PassValue v =>
        if negb (JS.typeof v =? "object")
        then Some (Collection.set "password" v data)
        else None
    | PassObject mfaCode password =>
        Some (Collection.set "password" password (Collection.set "code" mfaCode data))
    end
  else Some data.

(** [client.user.edit(data, passcode)] (ClientUser.js, 115-133).

    [api_patch] is [this.client.api.users('@me').patch({ data })], settled;
    [UserUpdate_handle] is [this.client.actions.UserUpdate.handle], of which
    only the [updated] member of the result is read.  Neither is among the
    sources. *)
Definition edit {UC : UserClass} {ApiError : Type}
    (api_patch : JSObject -> ApiError + Data.t)
    (UserUpdate_handle : Data.t -> Client -> Client * option ClientUser)
    (data : JSObject) (passcode : Passcode) (client : Client)
    : Client * JS.outcome ApiError ClientUser :=
  match user client with
  | None => (client, JS.Thrown "TypeError")
  | Some this =>
      match with_credentials (User_bot (inherited this)) data passcode with
      | None => (client, JS.Thrown "TypeError")
      | Some body =>
          match api_patch body with
          | inl e => (client, JS.Rejected e)
          | inr newData =>
              (* this.client.token = newData.token; *)
              let client := set_token (JS.prop (Data.token newData)) client in
              (* const { updated } = this.client.actions.UserUpdate.handle(newData); *)
              let (client, updated) := UserUpdate_handle newData client in
              match updated with
              | Some u => (client, JS.Fulfilled u)
              | None =>
                  (* return this; *)
                  (client,
                   JS.Fulfilled match user client with Some u => u | None => this end)
              end
          end
      end
  end.

End ClientUser.

(** ** The READY handler *)

Module Ready.
Import State.

(** The shard that delivered the packet; [ready_checks] counts the calls
    of [shard.checkReady()]. *)
Record Shard : Type := {
  id : JS.value;
  ready_checks : nat
}.

Definition checkReady (s : Shard) : Shard :=
  {| id := id s; ready_checks := S (ready_checks s) |}.

(** Lines 6-16: patch the existing [client.user], or build it.  The payload
    is returned as the handler leaves it ([data.user] gains two keys in the
    second branch). *)
Definition init_user {UC : UserClass} (client : Client) (data : Data.Ready)
    : Client * Data.Ready :=
  match user client with
  | Some u =>
      (* client.user._patch(data.user); *)
      let (u', client) := ClientUser._patch (Data.user data) u client in
      (set_user (Some u') client, data)
  | None =>
      (* data.user.user_settings = data.user_settings;
         data.user.user_guild_settings = data.user_guild_settings; *)
      let user_data :=
        Data.set_user_guild_settings (Data.r_user_guild_settings data)
          (Data.set_user_settings (Data.r_user_settings data) (Data.user data)) in
      let data :=
        {| Data.user := user_data;
           Data.guilds := Data.guilds data;
           Data.relationships := Data.relationships data;
           Data.notes := Data.notes data;
           Data.r_user_settings := Data.r_user_settings data;
           Data.r_user_guild_settings := Data.r_user_guild_settings data |} in
      (* const clientUser = new ClientUser(client, data.user); *)
      let (clientUser, client) := ClientUser.new client user_data in
      (* client.user = clientUser; *)
      let client := set_user (Some clientUser) client in
      (* client.users.cache.set(clientUser.id, clientUser); *)
      let client :=
        set_users
          (Collection.set (User_id (inherited clientUser)) CachedClientUser (users client))
          client in
      (client, data)
  end.

(** Modelled from the spec: [client.guilds.add] (the guild registry is an
    external collaborator).  Section 4.2, step 3: the guild is registered
    under its id. *)
Definition guilds_add {UC : UserClass} (g : Data.Guild) (client : Client) : Client :=
  set_guilds (Collection.set (Data.g_id g) g (guilds client)) client.

(** Lines 18-21. *)
Definition add_guilds {UC : UserClass} (shard : Shard) (l : list Data.Guild)
    (client : Client) : Client :=
  fold_left
    (fun client guild => guilds_add (Data.set_shardID (id shard) guild) client)
    l client.

(** [client.user.friends.set(k, v)]; nothing to write to when
    [client.user] is not set. *)
Definition friends_set {UC : UserClass} (k : string) (v : UserRef) (client : Client) : Client :=
  match user client with
  | Some u => set_user (Some (set_friends (Collection.set k v (friends u)) u)) client
  | None => client
  end.

Definition blocked_set {UC : UserClass} (k : string) (v : UserRef) (client : Client) : Client :=
  match user client with
  | Some u => set_user (Some (set_blocked (Collection.set k v (blocked u)) u)) client
  | None => client
  end.

Definition notes_set {UC : UserClass} (k : string) (v : JS.value) (client : Client) : Client :=
  match user client with
  | Some u => set_user (Some (set_notes (Collection.set k v (notes u)) u)) client
  | None => client
  end.

(** [relation.user.id]. *)
Definition rel_id {UC : UserClass} (r : Data.Relation) : string :=
  UserData_id (Data.rel_user r).

(** The body of the loop of lines 23-30. *)
Definition add_relation {UC : UserClass} (client : Client) (relation : Data.Relation)
    : Client :=
  (* const user = client.users.add(relation.user); *)
  let (client, user) := UserStore.add (Data.rel_user relation) client in
  if (Data.rel_type relation =? 1)%Z then
    friends_set (ref_id user) user client
  else if (Data.rel_type relation =? 2)%Z then
    blocked_set (ref_id user) user client
  else client.

Definition add_relations {UC : UserClass} (l : list Data.Relation) (client : Client)
    : Client :=
  fold_left add_relation l client.

(** The body of the loop of lines 33-38. *)
Definition add_note {UC : UserClass} (client : Client) (entry : string * string) : Client :=
  let (user, note) := entry in
  (* if (!note.length) note = null; *)
  let note := match String.length note with O => JS.VNull | _ => JS.VStr note end in
  notes_set user note client.

(** Lines 32-39. *)
Definition add_notes {UC : UserClass} (n : JS.ref (list (string * string)))
    (client : Client) : Client :=
  match n with
  | JS.RObj l => fold_left add_note l client
  | _ => client
  end.

(** The packet after the loop of lines 18-21: [guild.shardID = shard.id]. *)
Definition tag_guilds {UC : UserClass} (shard : Shard) (data : Data.Ready) : Data.Ready :=
  {| Data.user := Data.user data;
     Data.guilds := map (Data.set_shardID (id shard)) (Data.guilds data);
     Data.relationships := Data.relationships data;
     Data.notes := Data.notes data;
     Data.r_user_settings := Data.r_user_settings data;
     Data.r_user_guild_settings := Data.r_user_guild_settings data |}.

(** The client of a result of the handler. *)
Definition client_of {A B C : Type} (r : A * B * C) : A := fst (fst r).

(** The handler: [(client, { d: data }, shard) => { ... }].  It returns the
    client, the packet as the handler leaves it, and the shard. *)
Definition handler {UC : UserClass} (client : Client) (data : Data.Ready) (shard : Shard)
    : Client * Data.Ready * Shard :=
  let (client, data) := init_user client data in
  let client := add_guilds shard (Data.guilds data) client in
  let client := add_relations (Data.relationships data) client in
  let client := add_notes (Data.notes data) client in
  (client, tag_guilds shard data, checkReady shard).

End Ready.

(** ** [UserNoteUpdateAction] *)

Module UserNoteUpdateAction.

(** What happened, in order. *)
Inductive Effect : Type :=
| NotesSet (id : string) (note : JS.value)
| Emitted (event : string) (id : string) (oldNote note : JS.value).

(** The object that the action expects under [client.user.cache]. *)
Record Cache : Type := {
  notes : Collection.t JS.value
}.

(** [client.user.cache].  No property of this name is assigned anywhere:
    [ClientUser._patch] keeps the notes in [this.notes] (ClientUser.js, 58)
    and the READY handler writes them through [client.user.notes]
    (line 37), so the read gives [undefined]. *)
Definition cache {UC : UserClass} (user : State.ClientUser) : JS.ref Cache :=
  JS.RUndefined.

(** The client together with the state of the application that listens
    ([A]) and the record of the effects so far. *)
Record World {UC : UserClass} (A : Type) : Type := {
  client : State.Client;
  app : A;
  trace : list Effect
}.
Arguments client {UC A} w.
Arguments app {UC A} w.
Arguments trace {UC A} w.

(** A listener registered for the event: it is called with the arguments of
    the emission, may read the notes collection, and updates the state of
    the application. *)
Definition Listener (A : Type) : Type :=
  string -> JS.value -> JS.value -> Collection.t JS.value -> A -> A.

(** [Events.USER_NOTE_UPDATE] ([util/Constants] is not among the sources;
    the name is that of the JSDoc [@event Client#userNoteUpdate]). *)
Definition USER_NOTE_UPDATE : string := "userNoteUpdate".

(** [{ id, note }]. *)
Record Data : Type := {
  id : string;
  note : string
}.

(** [{ old, updated }]. *)
Record Result : Type := {
  old : JS.value;
  updated : JS.value
}.

(** [handle(data)] (lines 5-19).  Reading [.notes] of [undefined] (or
    [.cache] of a [client.user] that is not set) throws a [TypeError] at
    line 8; the lines after it run on the notes of the cache object. *)
Definition handle {UC : UserClass} {A : Type} (listeners : list (Listener A))
    (data : Data) (w : World A) : World A * JS.outcome Empty_set Result :=
  match State.user (client w) with
  | None => (w, JS.Thrown "TypeError")
  | Some user =>
      match cache user with
      | JS.RObj c =>
          (* const oldNote = client.user.cache.notes.get(data.id); *)
          let oldNote := Collection.get_value (id data) (notes c) in
          (* const note = data.note.length ? data.note : null; *)
          let note :=
            match String.length (note data) with
            | O => JS.VNull
            | _ => JS.VStr (note data)
            end in
          (* client.user.cache.notes.set(data.id, note); *)
          let committed := Collection.set (id data) note (notes c) in
          (* client.emit(Events.USER_NOTE_UPDATE, data.id, oldNote, note); *)
          let w :=
            {| client := client w;
               app := fold_left (fun a l => l (id data) oldNote note committed a)
                        listeners (app w);
               trace := (trace w ++ [NotesSet (id data) note;
                                     Emitted USER_NOTE_UPDATE (id data) oldNote note])%list |} in
          (w, JS.Fulfilled {| old := oldNote; updated := note |})
      | _ => (w, JS.Thrown "TypeError")
      end
  end.

End UserNoteUpdateAction.

(** ** [ClientApplication] *)

(** [ClientApplication extends Application]; [interfaces/Application.js] is
    not among the sources. *)
Class ApplicationClass : Type := {
  Application : Type;
  ApplicationData : Type;
  Application_patch : ApplicationData -> Application -> Application
}.

Module ClientApplication.
Import State.

(** [new Team(this.client, data.team)]. *)
Inductive Team : Type :=
| new_Team (data : JSObject).

(** [this.owner], of type [?User|Team]. *)
Inductive Owner : Type :=
| TeamOwner (team : Team)
| SoleOwner (user : UserRef)
| NoOwner.

(** The application payload. *)
Record Data {UC : UserClass} {AC : ApplicationClass} : Type := {
  base : ApplicationData;
  cover_image : option JS.value;
  rpc_origins : JS.ref (list string);
  bot_require_code_grant : option JS.value;
  bot_public : option JS.value;
  team : JS.ref JSObject;
  d_owner : JS.ref UserData
}.

Record t {AC : ApplicationClass} : Type := {
  inherited : Application;
  cover : JS.value;
  rpcOrigins : list string;
  botRequireCodeGrant : JS.value;
  botPublic : JS.value;
  owner : Owner
}.

(** [typeof v !== 'undefined' ? v : null]. *)
Definition defined_or_null (v : JS.value) : JS.value :=
  if negb (JS.typeof v =? "undefined") then v else JS.VNull.

(** [_patch(data)] (ClientApplication.js, 11-43). *)
Definition _patch {UC : UserClass} {AC : ApplicationClass}
    (data : Data) (this : t) (client : Client) : t * Client :=
  (* this.owner = data.team ? new Team(this.client, data.team)
                : data.owner ? this.client.users.add(data.owner) : null; *)
  let (client', owner') :=
    match team data with
    | JS.RObj tm => (client, TeamOwner (new_Team tm))
    | _ =>
        match d_owner data with
        | JS.RObj o =>
            let (client', u) := UserStore.add o client in (client', SoleOwner u)
        | _ => (client, NoOwner)
        end
    end in
  ({| (* super._patch(data); *)
      inherited := Application_patch (base data) (inherited this);
      (* this.cover = data.cover_image || null; *)
      cover :=
        if JS.truthy (JS.prop (cover_image data)) then JS.prop (cover_image data)
        else JS.VNull;
      (* this.rpcOrigins = data.rpc_origins || []; *)
      rpcOrigins := match rpc_origins data with JS.RObj l => l | _ => [] end;
      (* this.botRequireCodeGrant =
           typeof data.bot_require_code_grant !== 'undefined' ? ... : null; *)
      botRequireCodeGrant := defined_or_null (JS.prop (bot_require_code_grant data));
      (* this.botPublic = typeof data.bot_public !== 'undefined' ? ... : null; *)
      botPublic := defined_or_null (JS.prop (bot_public data));
      owner := owner' |},
   client').

End ClientApplication.

(** ** A concrete [User] and sample inputs *)

Module Sample.
Import State.

(** Modelled from the spec: [User] with identity fields of section 3 (id,
    name, and the bot flag that [edit] reads), patched with "overwrite when
    the key is present". *)
Record PlainUser : Type := {
  id : string;
  username : JS.value;
  bot : JS.value
}.

Record PlainUserData : Type := {
  d_id : string;
  d_username : option JS.value;
  d_bot : option JS.value
}.

Definition plain_patch (d : PlainUserData) (u : PlainUser) : PlainUser :=
  {| id := d_id d;
     username := match d_username d with Some v => v | None => username u end;
     bot := match d_bot d with Some v => v | None => bot u end |}.

#[export] Instance plain : UserClass :=
  {| User := PlainUser;
     UserData := PlainUserData;
     User_blank := {| id := ""; username := JS.VUndefined; bot := JS.VUndefined |};
     User_patch := plain_patch;
     User_id := id;
     User_bot := bot;
     UserData_id := d_id |}.

(** [{ id }]. *)
Definition user_data (i : string) : @UserData plain :=
  {| d_id := i; d_username := None; d_bot := None |}.

(** A user payload with only the inherited keys. *)
Definition bare (i : string) : @Data.t plain :=
  {| Data.base := user_data i;
     Data.verified := None; Data.email := None; Data.premium := None;
     Data.mfa_enabled := None; Data.mobile := None;
     Data.user_settings := JS.RUndefined;
     Data.user_guild_settings := JS.RUndefined;
     Data.token := None |}.

(** A client on which no READY packet has been handled yet. *)
Definition fresh_client : @Client plain :=
  {| user := None; token := JS.VStr "t0"; users := Collection.empty;
     guilds := Collection.empty; constructed := 0 |}.

Definition alice_user : PlainUser :=
  {| id := "1"; username := JS.VStr "alice"; bot := JS.VBool false |}.

(** A [ClientUser] with an email address, a premium flag, a friend and a
    note. *)
Definition alice : @ClientUser plain :=
  {| inherited := alice_user;
     _typing := Collection.empty;
     verified := JS.VBool true;
     email := JS.VStr "alice@example.org";
     friends := [("2", ref_user "2")];
     blocked := Collection.empty;
     notes := [("2", JS.VStr "hi")];
     premium := JS.VBool true;
     mfaEnabled := JS.VBool false;
     mobile := JS.VBool true;
     settings := Some (new_ClientUserSettings [("theme", JS.VStr "dark")]);
     guildSettings := Collection.empty |}.

(** A client whose user is [alice]. *)
Definition alice_client : @Client plain :=
  {| user := Some alice; token := JS.VStr "t0";
     users := [("1", CachedClientUser)]; guilds := Collection.empty;
     constructed := 1 |}.

Definition shard0 : Ready.Shard := {| Ready.id := JS.VNum 0; Ready.ready_checks := 0 |}.

(** A READY packet with settings, three relationships and no [notes] key. *)
Definition packet : @Data.Ready plain :=
  {| Data.user := bare "1";
     Data.guilds := [];
     Data.relationships :=
       [ {| Data.rel_user := user_data "A"; Data.rel_type := 1 |};
         {| Data.rel_user := user_data "B"; Data.rel_type := 2 |};
         {| Data.rel_user := user_data "C"; Data.rel_type := 99 |} ];
     Data.notes := JS.RUndefined;
     Data.r_user_settings := JS.RObj [("theme", JS.VStr "dark")];
     Data.r_user_guild_settings := JS.RUndefined |}.

(** The client after the packet has been handled once, and twice. *)
Definition once : @Client plain := Ready.client_of (Ready.handler fresh_client packet shard0).
Definition twice : @Client plain := Ready.client_of (Ready.handler once packet shard0).

End Sample.

(** ** A concrete [Application] *)

Module SampleApp.
Import State.

(** An [Application] that keeps the raw payload it was last patched with. *)
#[export] Instance plain : ApplicationClass :=
  {| Application := JSObject;
     ApplicationData := JSObject;
     Application_patch := fun data _ => data |}.

Definition blank : @ClientApplication.t plain :=
  {| ClientApplication.inherited := (Collection.empty : JSObject);
     ClientApplication.cover := JS.VUndefined;
     ClientApplication.rpcOrigins := [];
     ClientApplication.botRequireCodeGrant := JS.VUndefined;
     ClientApplication.botPublic := JS.VUndefined;
     ClientApplication.owner := ClientApplication.NoOwner |}.

(** [{ id: '7', team: null, owner: { id: '9' } }]: an application that
    belongs to one account. *)
Definition personal_app : @ClientApplication.Data Sample.plain plain :=
  {| ClientApplication.base := ([("id", JS.VStr "7")] : JSObject);
     ClientApplication.cover_image := None;
     ClientApplication.rpc_origins := JS.RUndefined;
     ClientApplication.bot_require_code_grant := None;
     ClientApplication.bot_public := None;
     ClientApplication.team := JS.RNull;
     ClientApplication.d_owner := JS.RObj (Sample.user_data "9") |}.

End SampleApp.

(** ** The other methods of [ClientUser] *)

Module ClientUserMethods.
Import State.

(** [typeof v === 'boolean' || v === null]: the three states of an optional
    flag. *)
Definition tri_state (v : JS.value) : bool :=
  match v with
  | JS.VBool _ | JS.VNull => true
  | _ => false
  end.

(** The second argument of [setPassword]. *)
Record PasswordOptions : Type := {
  oldPassword : JS.value;
  mfaCode : JS.value
}.

(** What [edit] returns once the request it has sent is settled with
    [response] (ClientUser.js, 124-132): the rejection as it is, or what the
    fulfilment callback returns. *)
Definition edit_settled {UC : UserClass} {ApiError : Type}
    (UserUpdate_handle : Data.t -> Client -> Client * option ClientUser)
    (this : ClientUser) (client : Client) (response : ApiError + Data.t)
    : Client * JS.outcome ApiError ClientUser :=
  match response with
  | inl e => (client, JS.Rejected e)
  | inr newData =>
      let client := set_token (JS.prop (Data.token newData)) client in
      let (client, updated) := UserUpdate_handle newData client in
      match updated with
      | Some u => (client, JS.Fulfilled u)
      | None =>
          (client, JS.Fulfilled match user client with Some u => u | None => this end)
      end
  end.

(** [setUsername(username, password)] (ClientUser.js, 148-150). *)
Definition setUsername {UC : UserClass} {ApiError : Type}
    (api_patch : JSObject -> ApiError + Data.t)
    (UserUpdate_handle : Data.t -> Client -> Client * option ClientUser)
    (username : JS.value) (password : ClientUser.Passcode) (client : Client)
    : Client * JS.outcome ApiError ClientUser :=
  ClientUser.edit api_patch UserUpdate_handle [("username", username)] password client.

(** [setEmail(email, password)] (ClientUser.js, 164-166). *)
Definition setEmail {UC : UserClass} {ApiError : Type}
    (api_patch : JSObject -> ApiError + Data.t)
    (UserUpdate_handle : Data.t -> Client -> Client * option ClientUser)
    (email : JS.value) (password : ClientUser.Passcode) (client : Client)
    : Client * JS.outcome ApiError ClientUser :=
  ClientUser.edit api_patch UserUpdate_handle [("email", email)] password client.

(** [setPassword(newPassword, options)] (ClientUser.js, 183-185).  The
    arguments of [this.edit] are evaluated first: reading
    [options.oldPassword] throws when [options] was not passed. *)
Definition setPassword {UC : UserClass} {ApiError : Type}
    (api_patch : JSObject -> ApiError + Data.t)
    (UserUpdate_handle : Data.t -> Client -> Client * option ClientUser)
    (newPassword : JS.value) (options : option PasswordOptions) (client : Client)
    : Client * JS.outcome ApiError ClientUser :=
  match options with
  | None => (client, JS.Thrown "TypeError")
  | Some o =>
      ClientUser.edit api_patch UserUpdate_handle [("new_password", newPassword)]
        (ClientUser.PassObject (mfaCode o) (oldPassword o)) client
  end.

(** [setAvatar(avatar)] (ClientUser.js, 197-199), with
    [await DataResolver.resolveImage(avatar)] settled to [image];
    [this.edit] gets no second argument. *)
Definition setAvatar {UC : UserClass} {ApiError : Type}
    (api_patch : JSObject -> ApiError + Data.t)
    (UserUpdate_handle : Data.t -> Client -> Client * option ClientUser)
    (image : ApiError + JS.value) (client : Client)
    : Client * JS.outcome ApiError ClientUser :=
  match image with
  | inl e => (client, JS.Rejected e)
  | inr avatar =>
      ClientUser.edit api_patch UserUpdate_handle [("avatar", avatar)]
        (ClientUser.PassValue JS.VUndefined) client
  end.

(** The object handed to [client.presence.set]; a field is [None] when the
    object literal has no such key. *)
Record PresenceData : Type := {
  status : option JS.value;
  afk : option JS.value;
  activity : option (JS.ref JSObject);
  shardID : option JS.value
}.

(** [setPresence(data)] (ClientUser.js, 223-225); [presence_set] is
    [this.client.presence.set]. *)
Definition setPresence {R : Type} (presence_set : PresenceData -> R) (data : PresenceData) : R :=
  presence_set data.

(** [setStatus(status, shardID)] (ClientUser.js, 247-249). *)
Definition setStatus {R : Type} (presence_set : PresenceData -> R)
    (status' shardID' : JS.value) : R :=
  setPresence presence_set
    {| status := Some status'; afk := None; activity := None; shardID := Some shardID' |}.

(** [setAFK(afk)] (ClientUser.js, 283-285). *)
Definition setAFK {R : Type} (presence_set : PresenceData -> R) (afk' : JS.value) : R :=
  setPresence presence_set
    {| status := None; afk := Some afk'; activity := None; shardID := None |}.

(** [Object.assign(target, source)]: the own keys of [source], in order,
    written into [target]. *)
Definition assign (target source : JSObject) : JSObject :=
  fold_left (fun t kv => Collection.set (fst kv) (snd kv) t) source target.

(** The first argument of [setActivity]: a primitive (the name, or nothing)
    or an options object. *)
Inductive ActivityName : Type :=
| NameValue (v : JS.value)
| NameObject (o : JSObject).

(** [setActivity(name, options = {})] (ClientUser.js, 271-276). *)
Definition setActivity {R : Type} (presence_set : PresenceData -> R)
    (name : ActivityName) (options : option JSObject) : R :=
  let options := match options with Some o => o | None => Collection.empty end in
  let falsy := match name with NameValue v => negb (JS.truthy v) | NameObject _ => false end in
  if falsy then
    (* return this.setPresence({ activity: null, shardID: options.shardID }); *)
    setPresence presence_set
      {| status := None; afk := None; activity := Some JS.RNull;
         shardID := Some (Collection.get_value "shardID" options) |}
  else
    (* Object.assign({}, options, typeof name === 'object' ? name : { name }) *)
    let activity' :=
      assign (assign Collection.empty options)
        match name with
        | NameObject o => o
        | NameValue v => [("name", v)]
        end in
    setPresence presence_set
      {| status := None; afk := None; activity := Some (JS.RObj activity');
         shardID := Some (Collection.get_value "shardID" activity') |}.

End ClientUserMethods.

(** ** Notes as the handlers store them *)

Module Note.

(** [note.length ? note : null]: what both the READY handler and
    [UserNoteUpdateAction] write for a raw note. *)
Definition normalize (note : string) : JS.value :=
  match String.length note with
  | O => JS.VNull
  | _ => JS.VStr note
  end.

(** A stored note is [null] or a non-empty string. *)
Definition stored (v : JS.value) : bool :=
  match v with
  | JS.VNull => true
  | JS.VStr s => negb (s =? "")
  | _ => false
  end.

Definition all_stored (m : Collection.t JS.value) : bool :=
  forallb (fun kv => stored (snd kv)) m.

End Note.

(** ** A bot account *)

Module SampleBot.
Import State.

Definition robo_user : Sample.PlainUser :=
  {| Sample.id := "5"; Sample.username := JS.VStr "robo"; Sample.bot := JS.VBool true |}.

(** A [ClientUser] whose [bot] flag is set. *)
Definition robo : @ClientUser Sample.plain :=
  @set_inherited Sample.plain robo_user Sample.alice.

Definition robo_client : @Client Sample.plain :=
  {| user := Some robo; token := JS.VStr "t0";
     users := [("5", CachedClientUser)]; guilds := Collection.empty;
     constructed := 1 |}.

End SampleBot.

(** ** A packet with guilds and notes *)

Module SampleFull.
Import State.

(** A READY packet with two guilds, the relationships of [Sample.packet],
    and a note for A and an empty note for B. *)
Definition packet : @Data.Ready Sample.plain :=
  {| Data.user := Sample.bare "1";
     Data.guilds :=
       [ {| Data.g_id := "g1"; Data.shardID := JS.VUndefined; Data.g_raw := [] |};
         {| Data.g_id := "g2"; Data.shardID := JS.VUndefined; Data.g_raw := [] |} ];
     Data.relationships := Data.relationships Sample.packet;
     Data.notes := JS.RObj [("A", "hi"); ("B", "")];
     Data.r_user_settings := JS.RObj [("theme", JS.VStr "dark")];
     Data.r_user_guild_settings :=
       JS.RObj [ {| Data.guild_id := "g1"; Data.overrides := [("muted", JS.VBool true)] |} ] |}.

Definition shard3 : Ready.Shard := {| Ready.id := JS.VNum 3; Ready.ready_checks := 0 |}.

End SampleFull.

(* ===================================================================== *)
(** * Part II: properties                                                  *)
(* ===================================================================== *)

(** ** Collections *)

Lemma get_set_eq {V : Type} (k : string) (v : V) (m : Collection.t V) :
  Collection.get k (Collection.set k v m) = Some v.
Proof.
  induction m as [|[k' v'] r IH]; simpl.
  - now rewrite String.eqb_refl.
  - destruct (k' =? k) eqn:E; simpl.
    + now rewrite String.eqb_refl.
    + now rewrite E.
Qed.

Lemma get_set_neq {V : Type} (k k' : string) (v : V) (m : Collection.t V) :
  k <> k' -> Collection.get k' (Collection.set k v m) = Collection.get k' m.
Proof.
  intros Hne. induction m as [|[k0 v0] r IH]; simpl.
  - apply String.eqb_neq in Hne. now rewrite Hne.
  - destruct (k0 =? k) eqn:E; simpl.
    + apply String.eqb_eq in E. subst k0.
      apply String.eqb_neq in Hne. now rewrite Hne.
    + destruct (k0 =? k'); auto.
Qed.

Lemma has_set {V : Type} (k k' : string) (v : V) (m : Collection.t V) :
  Collection.has k' (Collection.set k v m) = (k =? k') || Collection.has k' m.
Proof.
  unfold Collection.has. destruct (k =? k') eqn:E.
  - apply String.eqb_eq in E. subst. now rewrite get_set_eq.
  - apply String.eqb_neq in E. now rewrite get_set_neq.
Qed.

Lemma get_value_set_eq (k : string) (v : JS.value) (m : Collection.t JS.value) :
  Collection.get_value k (Collection.set k v m) = v.
Proof. unfold Collection.get_value. now rewrite get_set_eq. Qed.

Lemma get_value_set_neq (k k' : string) (v : JS.value) (m : Collection.t JS.value) :
  k <> k' ->
  Collection.get_value k' (Collection.set k v m) = Collection.get_value k' m.
Proof. intros H. unfold Collection.get_value. now rewrite get_set_neq. Qed.

(** ** [ClientUser._patch] *)

Section Patch.
Import State.
Context {UC : UserClass}.
Variables (data : Data.t) (this : ClientUser) (client : Client).

(** The fields that [_patch] assigns without a guard are functions of the
    payload alone. *)
Lemma patch_email :
  email (fst (ClientUser._patch data this client)) = JS.prop (Data.email data).
Proof. reflexivity. Qed.

Lemma patch_settings_absent :
  JS.truthy_ref (Data.user_settings data) = false ->
  settings (fst (ClientUser._patch data this client)) = None.
Proof. simpl. destruct (Data.user_settings data); simpl; congruence. Qed.

Lemma patch_settings_present (s : JSObject) :
  Data.user_settings data = JS.RObj s ->
  settings (fst (ClientUser._patch data this client)) = Some (new_ClientUserSettings s).
Proof. simpl. now intros ->. Qed.

(** [_patch] leaves everything of the client but the token alone. *)
Lemma patch_client_frame :
  let client' := snd (ClientUser._patch data this client) in
  user client' = user client /\ users client' = users client /\
  guilds client' = guilds client /\ constructed client' = constructed client.
Proof.
  simpl. destruct (JS.truthy (JS.prop (Data.token data))); simpl; auto.
Qed.

End Patch.

(** C10.  Whatever the payload and the prior state, [friends], [blocked] and
    [notes] are new empty collections when [_patch] returns: what was cached
    in them before is gone, no key resolves in any of them, and the same holds
    for an object built by the constructor.  [_patch] itself puts nothing
    back. *)
Theorem patch_discards_friends_blocked_notes :
  forall (UC : UserClass) (data : Data.t) (this : State.ClientUser) (client : State.Client),
    let this' := fst (ClientUser._patch data this client) in
    let built := fst (ClientUser.new client data) in
    (State.friends this' = Collection.empty /\
     State.blocked this' = Collection.empty /\
     State.notes this' = Collection.empty) /\
    (forall k, Collection.get k (State.friends this') = None /\
               Collection.get k (State.blocked this') = None /\
               Collection.get k (State.notes this') = None) /\
    (State.friends built = Collection.empty /\
     State.blocked built = Collection.empty /\
     State.notes built = Collection.empty).
Proof.
  intros UC data this client. cbv zeta. repeat split.
Qed.

(** C6.  The token of a payload goes to [client.token] and nowhere else.
    A payload carries a token when [data.token] is truthy (a non-empty
    string); then the slot holds that token after [_patch].  Otherwise, and in
    particular when the key is absent, the whole client is as before.  The
    object itself does not depend on the token of the payload, and nothing of
    the client but the slot is written. *)
Theorem patch_token_side_channel :
  forall (UC : UserClass) (data : Data.t) (this : State.ClientUser) (client : State.Client),
    let tok := JS.prop (Data.token data) in
    let this' := fst (ClientUser._patch data this client) in
    let client' := snd (ClientUser._patch data this client) in
    State.token client' = (if JS.truthy tok then tok else State.token client) /\
    (if JS.truthy tok then True else client' = client) /\
    (Data.token data = None -> client' = client) /\
    State.set_token (State.token client) client' = client /\
    (forall t, fst (ClientUser._patch (Data.set_token t data) this client) = this').
Proof.
  intros UC data this client. cbv zeta. simpl.
  destruct client as [u t us gs n].
  destruct (Data.token data) as [v|]; simpl.
  - destruct (JS.truthy v); simpl; repeat split; auto; discriminate.
  - repeat split; auto.
Qed.

(** C1 (as amended).  Field by field:
    - [verified] is overwritten when its key is in the payload and kept
      otherwise;
    - [mfaEnabled] is overwritten when its key is in the payload, kept when
      the key is absent and the field already has a value, and set to [null]
      when the key is absent and the field is still [undefined];
    - replacing the value of one key of the payload changes at most the field
      that this key feeds ([verified], [email], [premium], [mfa_enabled] ->
      [mfaEnabled], [mobile], [user_settings] -> [settings],
      [user_guild_settings] -> [guildSettings], the inherited keys -> the
      inherited fields) and nothing of the client; replacing the token changes nothing of the
      object and at most the token of the client. *)
Theorem patch_field_independence :
  forall (UC : UserClass) (data : Data.t) (this : State.ClientUser) (client : State.Client),
    let P := fun d => ClientUser._patch d this client in
    let this' := fst (P data) in
    State.verified this' =
      match Data.verified data with Some v => v | None => State.verified this end /\
    State.mfaEnabled this' =
      match Data.mfa_enabled data with
      | Some v => ClientUser.boolean_or_null v
      | None =>
          match State.mfaEnabled this with
          | JS.VUndefined => JS.VNull
          | v => v
          end
      end /\
    (forall v x, State.set_verified x (fst (P (Data.set_verified v data)))
                 = State.set_verified x this'
                 /\ snd (P (Data.set_verified v data)) = snd (P data)) /\
    (forall v x, State.set_email x (fst (P (Data.set_email v data)))
                 = State.set_email x this'
                 /\ snd (P (Data.set_email v data)) = snd (P data)) /\
    (forall v x, State.set_premium x (fst (P (Data.set_premium v data)))
                 = State.set_premium x this'
                 /\ snd (P (Data.set_premium v data)) = snd (P data)) /\
    (forall v x, State.set_mfaEnabled x (fst (P (Data.set_mfa_enabled v data)))
                 = State.set_mfaEnabled x this'
                 /\ snd (P (Data.set_mfa_enabled v data)) = snd (P data)) /\
    (forall v x, State.set_mobile x (fst (P (Data.set_mobile v data)))
                 = State.set_mobile x this'
                 /\ snd (P (Data.set_mobile v data)) = snd (P data)) /\
    (forall v x, State.set_settings x (fst (P (Data.set_user_settings v data)))
                 = State.set_settings x this'
                 /\ snd (P (Data.set_user_settings v data)) = snd (P data)) /\
    (forall v x, State.set_guildSettings x (fst (P (Data.set_user_guild_settings v data)))
                 = State.set_guildSettings x this'
                 /\ snd (P (Data.set_user_guild_settings v data)) = snd (P data)) /\
    (forall v x, State.set_inherited x (fst (P (Data.set_base v data)))
                 = State.set_inherited x this'
                 /\ snd (P (Data.set_base v data)) = snd (P data)) /\
    (forall v x, fst (P (Data.set_token v data)) = this'
                 /\ State.set_token x (snd (P (Data.set_token v data)))
                    = State.set_token x (snd (P data))).
Proof.
  intros UC data this client. cbv zeta.
  split; [reflexivity|].
  split.
  { simpl. destruct (Data.mfa_enabled data); [reflexivity|].
    destruct (State.mfaEnabled this); reflexivity. }
  repeat split; try reflexivity.
  simpl. destruct (JS.truthy (JS.prop v)), (JS.truthy (JS.prop (Data.token data)));
    reflexivity.
Qed.

(** C1, as stated, fails: the payload [{ id: '1' }] has no [email] key, yet
    after [_patch] the email of [alice] is [undefined]; and the payload
    [{ id: '1', verified: false }] also turns her premium flag into [null]
    and her settings into [null]. *)
Lemma patch_omitted_email_is_lost :
  Data.email (Sample.bare "1") = None /\
  State.email Sample.alice = JS.VStr "alice@example.org" /\
  State.email (fst (ClientUser._patch (Sample.bare "1") Sample.alice Sample.alice_client))
    = JS.VUndefined /\
  State.premium Sample.alice = JS.VBool true /\
  State.premium
    (fst (ClientUser._patch (Data.set_verified (Some (JS.VBool false)) (Sample.bare "1"))
            Sample.alice Sample.alice_client)) = JS.VNull /\
  State.settings
    (fst (ClientUser._patch (Data.set_verified (Some (JS.VBool false)) (Sample.bare "1"))
            Sample.alice Sample.alice_client)) = None.
Proof. repeat split. Qed.

(** ** [ClientApplication._patch] *)

(** C9 (as amended).  The owner is a [Team] built from [data.team] when that
    value is an object; otherwise the user that the user store resolves for
    [data.owner] when that value is an object, and this user is in the cache
    afterwards; otherwise [null].  A key that holds [null] or [undefined]
    counts like a missing one, and [team] is looked at first. *)
Theorem application_owner_resolution :
  forall (UC : UserClass) (AC : ApplicationClass)
         (data : ClientApplication.Data) (this : ClientApplication.t) (client : State.Client),
    let this' := fst (ClientApplication._patch data this client) in
    let client' := snd (ClientApplication._patch data this client) in
    ClientApplication.owner this' =
      match ClientApplication.team data with
      | JS.RObj tm => ClientApplication.TeamOwner (ClientApplication.new_Team tm)
      | _ =>
          match ClientApplication.d_owner data with
          | JS.RObj o => ClientApplication.SoleOwner (State.ref_user (UserData_id o))
          | _ => ClientApplication.NoOwner
          end
      end /\
    (forall u, ClientApplication.owner this' = ClientApplication.SoleOwner u ->
               Collection.has (State.ref_id u) (State.users client') = true) /\
    (forall tm, ClientApplication.owner this' = ClientApplication.TeamOwner tm ->
                client' = client).
Proof.
  intros UC AC data this client. cbv zeta.
  unfold ClientApplication._patch.
  destruct (ClientApplication.team data) as [| |tm];
    destruct (ClientApplication.d_owner data) as [| |o]; simpl;
    try (repeat split; intros; try discriminate; reflexivity).
  all: unfold UserStore.add;
       destruct (Collection.get (UserData_id o) (State.users client)) eqn:G; simpl;
       (split; [reflexivity|]); split; intros u H; try discriminate;
       inversion H; subst; simpl; unfold Collection.has;
       try rewrite G; try rewrite get_set_eq; reflexivity.
Qed.

(** C9, as stated, fails: the payload [{ team: null, owner: { id: '9' } }]
    has the [team] key, and the owner is the user, not a team. *)
Lemma application_null_team_is_sole_owner :
  ClientApplication.team SampleApp.personal_app = JS.RNull /\
  ClientApplication.owner
    (fst (ClientApplication._patch SampleApp.personal_app SampleApp.blank Sample.fresh_client))
  = ClientApplication.SoleOwner (State.ref_user "9").
Proof. split; reflexivity. Qed.

(** ** [UserNoteUpdateAction.handle] *)

(** [handle] never gets past its first statement. *)
Lemma handle_throws :
  forall (UC : UserClass) (A : Type) (listeners : list (UserNoteUpdateAction.Listener A))
         (data : UserNoteUpdateAction.Data) (w : UserNoteUpdateAction.World A),
    UserNoteUpdateAction.handle listeners data w = (w, JS.Thrown "TypeError").
Proof.
  intros UC A listeners data w. unfold UserNoteUpdateAction.handle.
  destruct (State.user (UserNoteUpdateAction.client w)); reflexivity.
Qed.

(** C3 at a client that has handled the READY packet of [SampleFull] (its
    notes hold ['hi'] for user A): [handle({ id: 'A', note: '' })] throws a
    [TypeError] instead of returning [{ old: 'hi', updated: null }], and the
    note of A is still ['hi']. *)
Theorem note_update_throws_after_ready :
  let ready : UserNoteUpdateAction.World unit :=
    {| UserNoteUpdateAction.client :=
         Ready.client_of
           (Ready.handler Sample.fresh_client SampleFull.packet SampleFull.shard3);
       UserNoteUpdateAction.app := tt;
       UserNoteUpdateAction.trace := [] |} in
  let r :=
    UserNoteUpdateAction.handle []
      {| UserNoteUpdateAction.id := "A"; UserNoteUpdateAction.note := "" |} ready in
  option_map (fun u => Collection.get "A" (State.notes u))
    (State.user (UserNoteUpdateAction.client ready)) = Some (Some (JS.VStr "hi")) /\
  snd r = JS.Thrown "TypeError" /\
  option_map (fun u => Collection.get "A" (State.notes u))
    (State.user (UserNoteUpdateAction.client (fst r))) = Some (Some (JS.VStr "hi")).
Proof. cbv zeta. repeat split. Qed.

(** C4 on the code: whatever the client, the listeners and the event, a call
    of [handle] writes nothing and emits nothing.  The trace and the state of
    the listeners are as before (no listener is run), the client is
    unchanged, and no result is returned. *)
Theorem note_update_emits_nothing :
  forall (UC : UserClass) (A : Type) (listeners : list (UserNoteUpdateAction.Listener A))
         (data : UserNoteUpdateAction.Data) (w : UserNoteUpdateAction.World A),
    let r := UserNoteUpdateAction.handle listeners data w in
    UserNoteUpdateAction.trace (fst r) = UserNoteUpdateAction.trace w /\
    UserNoteUpdateAction.app (fst r) = UserNoteUpdateAction.app w /\
    UserNoteUpdateAction.client (fst r) = UserNoteUpdateAction.client w /\
    (forall res, snd r <> JS.Fulfilled res).
Proof.
  intros UC A listeners data w. cbv zeta. rewrite handle_throws. simpl.
  repeat split. discriminate.
Qed.

(** ** [ClientUser.edit] *)

(** Whatever [edit] returns, the client is written only when the request
    succeeded. *)
Lemma edit_mutates_only_on_success :
  forall (UC : UserClass) (ApiError : Type)
         (api_patch : JSObject -> ApiError + Data.t)
         (UserUpdate_handle : Data.t -> State.Client -> State.Client * option State.ClientUser)
         (data : JSObject) (passcode : ClientUser.Passcode) (client : State.Client),
    (forall u, snd (ClientUser.edit api_patch UserUpdate_handle data passcode client)
               <> JS.Fulfilled u) ->
    fst (ClientUser.edit api_patch UserUpdate_handle data passcode client) = client.
Proof.
  intros UC ApiError api_patch handle data passcode client H.
  unfold ClientUser.edit in *.
  destruct (State.user client) as [this|]; [|reflexivity].
  destruct (ClientUser.with_credentials _ data passcode) as [body|]; [|reflexivity].
  destruct (api_patch body) as [e|newData]; [reflexivity|].
  exfalso.
  destruct (handle newData _) as [c' [u|]]; simpl in H.
  - now apply (H u).
  - now apply (H (match State.user c' with Some u => u | None => this end)).
Qed.

(** C8.  When the PATCH request fails with [e], [edit] returns the operation
    rejected with [e] and the client is exactly as before: the user object,
    its collections and the token are untouched, and [UserUpdate.handle] is
    not run. *)
Theorem edit_failure_is_atomic :
  forall (UC : UserClass) (ApiError : Type)
         (api_patch : JSObject -> ApiError + Data.t)
         (UserUpdate_handle : Data.t -> State.Client -> State.Client * option State.ClientUser)
         (data body : JSObject) (passcode : ClientUser.Passcode)
         (client : State.Client) (this : State.ClientUser) (e : ApiError),
    State.user client = Some this ->
    ClientUser.with_credentials (User_bot (State.inherited this)) data passcode = Some body ->
    api_patch body = inl e ->
    ClientUser.edit api_patch UserUpdate_handle data passcode client
    = (client, JS.Rejected e).
Proof.
  intros UC ApiError api_patch handle data body passcode client this e Hu Hb He.
  unfold ClientUser.edit. rewrite Hu, Hb, He. reflexivity.
Qed.

(** [alice] changes her name with her password and the server answers 401,
    whatever [UserUpdate.handle] would have done. *)
Lemma edit_failure_is_atomic_witness :
  ClientUser.edit (fun _ => inl "401: Unauthorized")
    (fun _ c => (State.set_user None c, None))
    [("username", JS.VStr "bob")] (ClientUser.PassValue (JS.VStr "secret"))
    Sample.alice_client
  = (Sample.alice_client, JS.Rejected "401: Unauthorized").
Proof.
  apply (edit_failure_is_atomic Sample.plain string
           (fun _ => inl "401: Unauthorized")
           (fun _ c => (State.set_user None c, None))
           [("username", JS.VStr "bob")]
           [("username", JS.VStr "bob"); ("password", JS.VStr "secret")]
           (ClientUser.PassValue (JS.VStr "secret"))
           Sample.alice_client Sample.alice "401: Unauthorized");
    reflexivity.
Defined.

(** ** The READY handler *)

Section ReadySteps.
Import State.
Context {UC : UserClass}.

Local Abbreviation uid := Ready.rel_id.

(** After the first step there is a user object, and it is the result of
    [_patch]: its three collections are empty. *)
Lemma init_user_some (client : Client) (data : Data.Ready) :
  exists u, user (fst (Ready.init_user client data)) = Some u /\
            friends u = Collection.empty /\
            blocked u = Collection.empty /\
            notes u = Collection.empty.
Proof.
  unfold Ready.init_user. destruct (user client) as [u|]; simpl; eauto 10.
Qed.

Lemma init_user_packet (client : Client) (data : Data.Ready) :
  let data' := snd (Ready.init_user client data) in
  Data.guilds data' = Data.guilds data /\
  Data.relationships data' = Data.relationships data /\
  Data.notes data' = Data.notes data.
Proof.
  unfold Ready.init_user. destruct (user client) as [u|]; simpl; auto.
Qed.

(** Re-entry: the existing object is patched, none is built. *)
Lemma init_user_reentry (client : Client) (data : Data.Ready) (u : ClientUser) :
  user client = Some u ->
  user (fst (Ready.init_user client data))
    = Some (fst (ClientUser._patch (Data.user data) u client)) /\
  constructed (fst (Ready.init_user client data)) = constructed client /\
  users (fst (Ready.init_user client data)) = users client /\
  snd (Ready.init_user client data) = data.
Proof.
  intros Hu. unfold Ready.init_user. rewrite Hu. simpl.
  destruct (JS.truthy (JS.prop (Data.token (Data.user data)))); simpl; auto.
Qed.

(** Registering guilds does not touch the user object or the user cache. *)
Lemma add_guilds_frame (shard : Ready.Shard) (l : list Data.Guild) (client : Client) :
  user (Ready.add_guilds shard l client) = user client /\
  users (Ready.add_guilds shard l client) = users client /\
  token (Ready.add_guilds shard l client) = token client /\
  constructed (Ready.add_guilds shard l client) = constructed client.
Proof.
  unfold Ready.add_guilds. revert client.
  induction l as [|g l IH]; intros client; simpl; [auto|].
  destruct (IH (Ready.guilds_add (Data.set_shardID (Ready.id shard) g) client))
    as (H1 & H2 & H3 & H4).
  rewrite H1, H2, H3, H4. auto.
Qed.

(** One relationship record. *)
Lemma add_relation_step (client : Client) (r : Data.Relation) (u : ClientUser) :
  user client = Some u ->
  exists u',
    user (Ready.add_relation client r) = Some u' /\
    friends u' =
      (if (Data.rel_type r =? 1)%Z
       then Collection.set (uid r) (ref_user (uid r)) (friends u) else friends u) /\
    blocked u' =
      (if (Data.rel_type r =? 1)%Z then blocked u
       else if (Data.rel_type r =? 2)%Z
            then Collection.set (uid r) (ref_user (uid r)) (blocked u) else blocked u) /\
    set_friends (friends u) (set_blocked (blocked u) u') = u /\
    (forall k, Collection.has k (users (Ready.add_relation client r))
               = (uid r =? k) || Collection.has k (users client)) /\
    token (Ready.add_relation client r) = token client /\
    constructed (Ready.add_relation client r) = constructed client.
Proof.
  intros Hu. unfold Ready.add_relation, UserStore.add.
  change (UserData_id (Data.rel_user r)) with (uid r).
  assert (Hhas : forall k (c0 : Collection.t Cached),
             Collection.get (uid r) c0 <> None ->
             Collection.has k c0 = (uid r =? k) || Collection.has k c0).
  { intros k c0 Hg. destruct (uid r =? k) eqn:E; [|reflexivity].
    apply String.eqb_eq in E. subst k. unfold Collection.has.
    destruct (Collection.get (uid r) c0); [reflexivity | contradiction]. }
  destruct u as [i ty v e f b n p m mo s gs].
  destruct (Collection.get (uid r) (users client)) eqn:G; simpl;
    destruct (Data.rel_type r =? 1)%Z; [| destruct (Data.rel_type r =? 2)%Z | |
    destruct (Data.rel_type r =? 2)%Z];
    unfold Ready.friends_set, Ready.blocked_set; simpl; try rewrite Hu; simpl;
    eexists; (split; [reflexivity|]); simpl;
    repeat split; intros; try (apply Hhas; congruence); try apply has_set.
Qed.

Lemma add_relations_cons (r : Data.Relation) (l : list Data.Relation) (client : Client) :
  Ready.add_relations (r :: l) client
  = Ready.add_relations l (Ready.add_relation client r).
Proof. reflexivity. Qed.

(** The whole loop, from any state in which the user object exists. *)
Lemma add_relations_spec (l : list Data.Relation) :
  forall (client : Client) (u : ClientUser),
    user client = Some u ->
    exists u',
      user (Ready.add_relations l client) = Some u' /\
      (forall k, Collection.has k (friends u') = true <->
                 Collection.has k (friends u) = true \/
                 exists r, In r l /\ uid r = k /\ Data.rel_type r = 1%Z) /\
      (forall k, Collection.has k (blocked u') = true <->
                 Collection.has k (blocked u) = true \/
                 exists r, In r l /\ uid r = k /\ Data.rel_type r = 2%Z) /\
      (forall k v, Collection.get k (friends u') = Some v ->
                   v = ref_user k \/ Collection.get k (friends u) = Some v) /\
      (forall k v, Collection.get k (blocked u') = Some v ->
                   v = ref_user k \/ Collection.get k (blocked u) = Some v) /\
      set_friends (friends u) (set_blocked (blocked u) u') = u /\
      (forall k, Collection.has k (users (Ready.add_relations l client)) = true <->
                 Collection.has k (users client) = true \/
                 exists r, In r l /\ uid r = k) /\
      token (Ready.add_relations l client) = token client /\
      constructed (Ready.add_relations l client) = constructed client.
Proof.
  induction l as [|r l IH]; intros client u Hu.
  - exists u. simpl. rewrite Hu.
    repeat split; auto; try tauto;
      try (intros [H|(r & [] & _)]; exact H).
    destruct u; reflexivity.
  - rewrite add_relations_cons.
    destruct (add_relation_step client r u Hu)
      as (u1 & Hu1 & Hf1 & Hb1 & Hfr1 & Hus1 & Ht1 & Hc1).
    destruct (IH _ u1 Hu1)
      as (u' & Hu' & Hf & Hb & Hfv & Hbv & Hfr & Hus & Ht & Hc).
    exists u'. split; [exact Hu'|].
    split; [|split; [|split; [|split; [|split; [|split; [|split]]]]]].
    + intros k. rewrite Hf, Hf1. clear - r.
      destruct (Data.rel_type r =? 1)%Z eqn:E1.
      * apply Z.eqb_eq in E1. rewrite has_set.
        destruct (uid r =? k) eqn:Ek; simpl.
        -- apply String.eqb_eq in Ek. split; intros _; [|now left].
           right. exists r. simpl. auto.
        -- apply String.eqb_neq in Ek.
           split; intros [H|(r' & Hin & Hk & Hty)]; auto.
           ++ right. exists r'. simpl. auto.
           ++ destruct Hin as [<-|Hin]; [contradiction|].
              right. exists r'. auto.
      * apply Z.eqb_neq in E1.
        split; intros [H|(r' & Hin & Hk & Hty)]; auto.
        -- right. exists r'. simpl. auto.
        -- destruct Hin as [<-|Hin]; [contradiction|].
           right. exists r'. auto.
    + intros k. rewrite Hb, Hb1. clear - r.
      destruct (Data.rel_type r =? 1)%Z eqn:E1;
        [|destruct (Data.rel_type r =? 2)%Z eqn:E2].
      * apply Z.eqb_eq in E1.
        split; intros [H|(r' & Hin & Hk & Hty)]; auto.
        -- right. exists r'. simpl. auto.
        -- destruct Hin as [<-|Hin]; [lia|].
           right. exists r'. auto.
      * apply Z.eqb_eq in E2. rewrite has_set.
        destruct (uid r =? k) eqn:Ek; simpl.
        -- apply String.eqb_eq in Ek. split; intros _; [|now left].
           right. exists r. simpl. auto.
        -- apply String.eqb_neq in Ek.
           split; intros [H|(r' & Hin & Hk & Hty)]; auto.
           ++ right. exists r'. simpl. auto.
           ++ destruct Hin as [<-|Hin]; [contradiction|].
              right. exists r'. auto.
      * apply Z.eqb_neq in E2.
        split; intros [H|(r' & Hin & Hk & Hty)]; auto.
        -- right. exists r'. simpl. auto.
        -- destruct Hin as [<-|Hin]; [contradiction|].
           right. exists r'. auto.
    + intros k v Hg. destruct (Hfv k v Hg) as [H|H]; [now left|].
      rewrite Hf1 in H. destruct (Data.rel_type r =? 1)%Z; [|now right].
      destruct (uid r =? k) eqn:Ek.
      * apply String.eqb_eq in Ek. rewrite Ek, get_set_eq in H. left. congruence.
      * apply String.eqb_neq in Ek. rewrite get_set_neq in H by exact Ek. now right.
    + intros k v Hg. destruct (Hbv k v Hg) as [H|H]; [now left|].
      rewrite Hb1 in H.
      destruct (Data.rel_type r =? 1)%Z; [now right|].
      destruct (Data.rel_type r =? 2)%Z; [|now right].
      destruct (uid r =? k) eqn:Ek.
      * apply String.eqb_eq in Ek. rewrite Ek, get_set_eq in H. left. congruence.
      * apply String.eqb_neq in Ek. rewrite get_set_neq in H by exact Ek. now right.
    + clear - Hfr Hfr1. destruct u, u1, u'.
      unfold set_friends, set_blocked in *. simpl in *. congruence.
    + intros k. rewrite Hus, Hus1.
      destruct (uid r =? k) eqn:Ek; simpl.
      * apply String.eqb_eq in Ek. split; intros _; [|now left].
        right. exists r. simpl. auto.
      * apply String.eqb_neq in Ek.
        split; intros [H|(r' & Hin & Hk)]; auto.
        -- right. exists r'. simpl. auto.
        -- destruct Hin as [<-|Hin]; [contradiction|].
           right. exists r'. auto.
    + congruence.
    + congruence.
Qed.

End ReadySteps.

Section ReadyNotes.
Import State.
Context {UC : UserClass}.

(** One note entry writes [notes] and nothing else. *)
Lemma add_note_frame (client : Client) (entry : string * string) (u : ClientUser) :
  user client = Some u ->
  exists u',
    user (Ready.add_note client entry) = Some u' /\
    set_notes (notes u) u' = u /\
    users (Ready.add_note client entry) = users client /\
    token (Ready.add_note client entry) = token client /\
    constructed (Ready.add_note client entry) = constructed client.
Proof.
  intros Hu. destruct entry as [k n]. unfold Ready.add_note, Ready.notes_set.
  rewrite Hu. simpl. eexists. split; [reflexivity|].
  destruct u; repeat split.
Qed.

(** The note step as a whole. *)
Lemma add_notes_frame (n : JS.ref (list (string * string))) :
  forall (client : Client) (u : ClientUser),
    user client = Some u ->
    exists u',
      user (Ready.add_notes n client) = Some u' /\
      set_notes (notes u) u' = u /\
      users (Ready.add_notes n client) = users client /\
      token (Ready.add_notes n client) = token client /\
      constructed (Ready.add_notes n client) = constructed client.
Proof.
  assert (Hid : forall client u, user client = Some u ->
            exists u', user client = Some u' /\ set_notes (notes u) u' = u /\
                       users client = users client /\ token client = token client /\
                       constructed client = constructed client).
  { intros client u Hu. exists u. destruct u; auto. }
  destruct n as [| |l]; simpl; try exact Hid.
  induction l as [|e l IH]; intros client u Hu; simpl; [now apply Hid|].
  destruct (add_note_frame client e u Hu) as (u1 & Hu1 & Hfr1 & Hus1 & Ht1 & Hc1).
  destruct (IH _ u1 Hu1) as (u' & Hu' & Hfr & Hus & Ht & Hc).
  exists u'. split; [exact Hu'|].
  split; [|repeat split; congruence].
  clear - Hfr Hfr1. destruct u, u1, u'.
  unfold set_notes in *. simpl in *. congruence.
Qed.

(** When [data.notes] is not an object the note step is skipped. *)
Lemma add_notes_skipped (n : JS.ref (list (string * string))) (client : Client) :
  JS.truthy_ref n = false -> Ready.add_notes n client = client.
Proof. destruct n; simpl; [reflexivity | reflexivity | discriminate]. Qed.

(** The relationship loop does not write [notes]. *)
Lemma add_relations_notes (l : list Data.Relation) (client : Client) (u : ClientUser) :
  user client = Some u ->
  option_map notes (user (Ready.add_relations l client)) = Some (notes u).
Proof.
  intros Hu.
  destruct (add_relations_spec l client u Hu) as (u' & Hu' & _ & _ & _ & _ & Hfr & _).
  rewrite Hu'. simpl. rewrite <- Hfr. reflexivity.
Qed.

End ReadyNotes.

(** C5.  After a READY packet has been handled, whatever the client was
    before: the user of every relationship record is in the user cache; a key
    is in [friends] exactly when some record of that user has type 1, and in
    [blocked] exactly when some record of that user has type 2, each entry
    being the reference to the cached user of that id; and a user who has a
    record and whose records all have other type codes is in the cache and in
    neither collection. *)
Theorem ready_relationship_classification :
  forall (UC : UserClass) (client : State.Client) (data : Data.Ready) (shard : Ready.Shard),
    let client' := Ready.client_of (Ready.handler client data shard) in
    let rels := Data.relationships data in
    exists u',
      State.user client' = Some u' /\
      (forall r, In r rels ->
         Collection.has (Ready.rel_id r) (State.users client') = true) /\
      (forall k, Collection.has k (State.friends u') = true <->
                 exists r, In r rels /\ Ready.rel_id r = k /\ Data.rel_type r = 1%Z) /\
      (forall k, Collection.has k (State.blocked u') = true <->
                 exists r, In r rels /\ Ready.rel_id r = k /\ Data.rel_type r = 2%Z) /\
      (forall k v, Collection.get k (State.friends u') = Some v -> v = State.ref_user k) /\
      (forall k v, Collection.get k (State.blocked u') = Some v -> v = State.ref_user k) /\
      (forall k,
         (exists r, In r rels /\ Ready.rel_id r = k) ->
         (forall r, In r rels -> Ready.rel_id r = k ->
                    Data.rel_type r <> 1%Z /\ Data.rel_type r <> 2%Z) ->
         Collection.has k (State.users client') = true /\
         Collection.has k (State.friends u') = false /\
         Collection.has k (State.blocked u') = false).
Proof.
  intros UC client data shard. cbv zeta.
  unfold Ready.handler, Ready.client_of.
  destruct (init_user_some client data) as (u1 & Hu1 & Hf1 & Hb1 & _).
  destruct (init_user_packet client data) as (_ & Hrel & _).
  destruct (Ready.init_user client data) as [c1 d1]. simpl in *.
  destruct (add_guilds_frame shard (Data.guilds d1) c1) as (Hg & _).
  rewrite <- Hg in Hu1.
  destruct (add_relations_spec (Data.relationships d1) _ u1 Hu1)
    as (u3 & Hu3 & Hf & Hb & Hfv & Hbv & _ & Hus & _).
  destruct (add_notes_frame (Data.notes d1) _ u3 Hu3) as (u4 & Hu4 & Hfr & Hus4 & _).
  rewrite Hrel in *.
  assert (Hf4 : State.friends u4 = State.friends u3)
    by (rewrite <- Hfr; reflexivity).
  assert (Hb4 : State.blocked u4 = State.blocked u3)
    by (rewrite <- Hfr; reflexivity).
  assert (Hfk : forall k, Collection.has k (State.friends u4) = true <->
                 exists r, In r (Data.relationships data) /\
                           Ready.rel_id r = k /\ Data.rel_type r = 1%Z).
  { intros k. rewrite Hf4, Hf, Hf1. split; [intros [H|H]; [discriminate|exact H] | auto]. }
  assert (Hbk : forall k, Collection.has k (State.blocked u4) = true <->
                 exists r, In r (Data.relationships data) /\
                           Ready.rel_id r = k /\ Data.rel_type r = 2%Z).
  { intros k. rewrite Hb4, Hb, Hb1. split; [intros [H|H]; [discriminate|exact H] | auto]. }
  assert (Huk : forall r, In r (Data.relationships data) ->
                 Collection.has (Ready.rel_id r)
                   (State.users (Ready.add_notes (Data.notes d1)
                      (Ready.add_relations (Data.relationships data)
                         (Ready.add_guilds shard (Data.guilds d1) c1)))) = true).
  { intros r Hin. rewrite Hus4. apply Hus. right. exists r. auto. }
  exists u4. split; [exact Hu4|].
  split; [exact Huk|].
  split; [exact Hfk|].
  split; [exact Hbk|].
  split.
  { intros k v Hg'. rewrite Hf4 in Hg'. destruct (Hfv k v Hg') as [H|H]; [exact H|].
    rewrite Hf1 in H. discriminate. }
  split.
  { intros k v Hg'. rewrite Hb4 in Hg'. destruct (Hbv k v Hg') as [H|H]; [exact H|].
    rewrite Hb1 in H. discriminate. }
  intros k (r & Hin & Hk) Hother.
  split; [subst k; now apply Huk|].
  split.
  - destruct (Collection.has k (State.friends u4)) eqn:E; [|reflexivity].
    apply Hfk in E. destruct E as (r' & Hin' & Hk' & Hty).
    destruct (Hother r' Hin' Hk'). contradiction.
  - destruct (Collection.has k (State.blocked u4)) eqn:E; [|reflexivity].
    apply Hbk in E. destruct E as (r' & Hin' & Hk' & Hty).
    destruct (Hother r' Hin' Hk'). contradiction.
Qed.

(** The example of the specification: with the records [(A, 1)], [(B, 2)]
    and [(C, 99)], [friends] holds only A, [blocked] only B, and C is cached
    and in neither. *)
Example ready_classifies_sample :
  option_map (fun u => Collection.keys (State.friends u)) (State.user Sample.once)
    = Some ["A"] /\
  option_map (fun u => Collection.keys (State.blocked u)) (State.user Sample.once)
    = Some ["B"] /\
  Collection.has "C" (State.users Sample.once) = true.
Proof. repeat split. Qed.

(** C7 (as amended).  When [data.notes] is not an object (the key is absent),
    the note step is skipped: what the handler leaves in [notes] is what its
    first step, the patch or the construction of the user object, left there,
    and the steps after it insert nothing. *)
Theorem ready_without_notes_skips_note_step :
  forall (UC : UserClass) (client : State.Client) (data : Data.Ready) (shard : Ready.Shard),
    JS.truthy_ref (Data.notes data) = false ->
    let client' := Ready.client_of (Ready.handler client data shard) in
    option_map State.notes (State.user client')
      = option_map State.notes (State.user (fst (Ready.init_user client data))) /\
    (forall k, option_map (fun u => Collection.get k (State.notes u)) (State.user client')
               = Some None).
Proof.
  intros UC client data shard Hn. cbv zeta.
  unfold Ready.handler, Ready.client_of.
  destruct (init_user_some client data) as (u1 & Hu1 & _ & _ & Hn1).
  destruct (init_user_packet client data) as (_ & _ & Hnotes).
  destruct (Ready.init_user client data) as [c1 d1]. simpl in *.
  rewrite Hnotes, (add_notes_skipped _ _ Hn).
  destruct (add_guilds_frame shard (Data.guilds d1) c1) as (Hg & _).
  assert (Hu2 : State.user (Ready.add_guilds shard (Data.guilds d1) c1) = Some u1)
    by congruence.
  rewrite Hu1. simpl.
  pose proof (add_relations_notes (Data.relationships d1) _ u1 Hu2) as H.
  split; [exact H|].
  intros k.
  destruct (State.user (Ready.add_relations (Data.relationships d1)
              (Ready.add_guilds shard (Data.guilds d1) c1))) as [u3|];
    simpl in *; [|discriminate].
  injection H as H. rewrite H, Hn1. reflexivity.
Qed.

(** The sample packet has no [notes] key. *)
Lemma ready_without_notes_witness :
  JS.truthy_ref (Data.notes Sample.packet) = false /\
  option_map State.notes
    (State.user (Ready.client_of (Ready.handler Sample.alice_client Sample.packet Sample.shard0)))
  = option_map State.notes
      (State.user (fst (Ready.init_user Sample.alice_client Sample.packet))) /\
  (forall k,
     option_map (fun u => Collection.get k (State.notes u))
       (State.user (Ready.client_of
          (Ready.handler Sample.alice_client Sample.packet Sample.shard0)))
     = Some None).
Proof.
  split; [reflexivity|].
  apply (ready_without_notes_skips_note_step Sample.plain
           Sample.alice_client Sample.packet Sample.shard0).
  reflexivity.
Defined.

(** C7, as stated, fails: [alice] has the note ['hi'] for user 2; after a
    READY packet without a [notes] key the note is gone. *)
Lemma ready_without_notes_loses_cached_note :
  Data.notes Sample.packet = JS.RUndefined /\
  option_map (fun u => Collection.get "2" (State.notes u)) (State.user Sample.alice_client)
    = Some (Some (JS.VStr "hi")) /\
  option_map (fun u => Collection.get "2" (State.notes u))
    (State.user (Ready.client_of (Ready.handler Sample.alice_client Sample.packet Sample.shard0)))
    = Some None.
Proof. repeat split. Qed.

(** ** Handling READY again *)

(** X19.  A READY packet for a client that already has its user object never
    builds another one: the object is patched with [data.user], and the
    count of constructions stays. *)
Lemma ready_reentry_patches_in_place :
  forall (UC : UserClass) (client : State.Client) (data : Data.Ready) (shard : Ready.Shard)
         (u : State.ClientUser),
    State.user client = Some u ->
    let client' := Ready.client_of (Ready.handler client data shard) in
    let patched := fst (ClientUser._patch (Data.user data) u client) in
    State.constructed client' = State.constructed client /\
    exists u',
      State.user client' = Some u' /\
      State.set_friends Collection.empty
        (State.set_blocked Collection.empty (State.set_notes Collection.empty u'))
      = patched.
Proof.
  intros UC client data shard u Hu. cbv zeta.
  unfold Ready.handler, Ready.client_of.
  destruct (init_user_reentry client data u Hu) as (Hu1 & Hc1 & _ & Hd1).
  assert (He : State.friends (fst (ClientUser._patch (Data.user data) u client))
               = Collection.empty /\
               State.blocked (fst (ClientUser._patch (Data.user data) u client))
               = Collection.empty /\
               State.notes (fst (ClientUser._patch (Data.user data) u client))
               = Collection.empty) by (repeat split).
  destruct He as (Hf0 & Hb0 & Hn0).
  remember (fst (ClientUser._patch (Data.user data) u client)) as patched eqn:Hp.
  clear Hp.
  destruct (Ready.init_user client data) as [c1 d1].
  cbn [fst snd] in *. subst d1.
  destruct (add_guilds_frame shard (Data.guilds data) c1) as (Hg & _ & _ & Hgc).
  rewrite <- Hg in Hu1.
  destruct (add_relations_spec (Data.relationships data) _ _ Hu1)
    as (u3 & Hu3 & _ & _ & _ & _ & Hfr3 & _ & _ & Hc3).
  destruct (add_notes_frame (Data.notes data) _ u3 Hu3) as (u4 & Hu4 & Hfr4 & _ & _ & Hc4).
  split; [congruence|].
  exists u4. split; [exact Hu4|].
  clear - Hfr3 Hfr4 Hf0 Hb0 Hn0.
  destruct u4, u3, patched.
  unfold State.set_friends, State.set_blocked, State.set_notes in *.
  cbn in *. congruence.
Qed.

(** X20.  The first READY packet builds the user object, once. *)
Lemma ready_first_builds_once :
  forall (UC : UserClass) (client : State.Client) (data : Data.Ready) (shard : Ready.Shard),
    State.user client = None ->
    State.constructed (Ready.client_of (Ready.handler client data shard))
    = S (State.constructed client).
Proof.
  intros UC client data shard Hu.
  unfold Ready.handler, Ready.client_of.
  assert (H1 : State.constructed (fst (Ready.init_user client data))
               = S (State.constructed client)).
  { unfold Ready.init_user. rewrite Hu. simpl.
    destruct (JS.truthy _); reflexivity. }
  destruct (init_user_some client data) as (u1 & Hu1 & _).
  destruct (Ready.init_user client data) as [c1 d1]. simpl in *.
  destruct (add_guilds_frame shard (Data.guilds d1) c1) as (Hg & _ & _ & Hgc).
  rewrite <- Hg in Hu1.
  destruct (add_relations_spec (Data.relationships d1) _ _ Hu1)
    as (u3 & Hu3 & _ & _ & _ & _ & _ & _ & _ & Hc3).
  destruct (add_notes_frame (Data.notes d1) _ u3 Hu3) as (u4 & _ & _ & _ & _ & Hc4).
  congruence.
Qed.

(** C2 at the sample packet [{ user: { id: '1' }, user_settings: { theme:
    'dark' }, relationships: [...] }], delivered twice to a fresh client
    (each delivery parsed anew).  After the first delivery the user object
    has its settings; after the second it is the same single object, but its
    settings are [null]: the second delivery patches with [data.user], to
    which nothing has attached [user_settings]. *)
Theorem ready_twice_loses_settings :
  option_map State.settings (State.user Sample.once)
    = Some (Some (State.new_ClientUserSettings [("theme", JS.VStr "dark")])) /\
  option_map State.settings (State.user Sample.twice) = Some None /\
  State.user Sample.twice <> State.user Sample.once /\
  State.constructed Sample.once = 1 /\
  State.constructed Sample.twice = 1.
Proof.
  repeat split. discriminate.
Qed.

(** Handling the very object that the first run left behind (with
    [user_settings] attached to [data.user]) does give the same client. *)
Example ready_same_object_again :
  let r := Ready.handler Sample.fresh_client Sample.packet Sample.shard0 in
  Ready.client_of (Ready.handler (fst (fst r)) (snd (fst r)) (snd r)) = fst (fst r).
Proof. reflexivity. Qed.


(* ===================================================================== *)
(** * Part III: further properties of the code                             *)
(* ===================================================================== *)

(** ** Writing a list of entries into a collection *)

Lemma find_app_first {A : Type} (p : A -> bool) (l1 l2 : list A) :
  find p (l1 ++ l2) = match find p l1 with Some a => Some a | None => find p l2 end.
Proof.
  induction l1 as [|a l1 IH]; simpl; [reflexivity|].
  destruct (p a); [reflexivity | exact IH].
Qed.

(** After a loop of [set] calls, a key resolves to the value of the last
    entry written under it, and to what was there before when no entry has
    this key. *)
Lemma get_fold_set {A V : Type} (key : A -> string) (val : A -> V) (l : list A) :
  forall (acc : Collection.t V) (k : string),
    Collection.get k (fold_left (fun m a => Collection.set (key a) (val a) m) l acc)
    = match find (fun a => key a =? k) (rev l) with
      | Some a => Some (val a)
      | None => Collection.get k acc
      end.
Proof.
  induction l as [|a l IH]; intros acc k; simpl; [reflexivity|].
  rewrite IH, find_app_first.
  destruct (find (fun a0 => key a0 =? k) (rev l)); [reflexivity|].
  simpl. destruct (key a =? k) eqn:E.
  - apply String.eqb_eq in E. subst k. apply get_set_eq.
  - apply String.eqb_neq in E. now apply get_set_neq.
Qed.

Lemma set_fresh {V : Type} (k : string) (v : V) (m : Collection.t V) :
  Collection.get k m = None -> Collection.set k v m = (m ++ [(k, v)])%list.
Proof.
  induction m as [|[k' v'] r IH]; simpl; [reflexivity|].
  destruct (k' =? k); [discriminate|].
  intros H. now rewrite IH.
Qed.

Lemma has_keys {V : Type} (k : string) (m : Collection.t V) :
  Collection.has k m = true <-> In k (Collection.keys m).
Proof.
  unfold Collection.has, Collection.keys.
  induction m as [|[k' v'] r IH]; simpl.
  - split; [discriminate | contradiction].
  - destruct (k' =? k) eqn:E.
    + apply String.eqb_eq in E. split; auto.
    + apply String.eqb_neq in E. rewrite IH. split; [auto | intros [H|H]; [contradiction|exact H]].
Qed.

(** ** More on [ClientUser._patch] *)

(** X1.  Applying the same payload a second time changes nothing, neither
    in the object nor in the client, provided the inherited [_patch] itself
    has this property for the payload. *)
Theorem patch_twice_is_patch_once :
  forall (UC : UserClass) (data : Data.t) (this : State.ClientUser) (client : State.Client),
    User_patch (Data.base data) (User_patch (Data.base data) (State.inherited this))
      = User_patch (Data.base data) (State.inherited this) ->
    ClientUser._patch data (fst (ClientUser._patch data this client))
                           (snd (ClientUser._patch data this client))
    = ClientUser._patch data this client.
Proof.
  intros UC data this client Hidem.
  unfold ClientUser._patch. cbn [fst snd State.inherited State._typing State.verified
    State.mfaEnabled]. rewrite Hidem.
  f_equal.
  - f_equal.
    + destruct (Data.verified data); reflexivity.
    + destruct (Data.mfa_enabled data); [reflexivity|].
      destruct (State.mfaEnabled this); reflexivity.
  - destruct (JS.truthy (JS.prop (Data.token data))) eqn:E; [|reflexivity].
    destruct client; reflexivity.
Qed.

Lemma patch_twice_is_patch_once_witness :
  ClientUser._patch (Sample.bare "1")
    (fst (ClientUser._patch (Sample.bare "1") Sample.alice Sample.alice_client))
    (snd (ClientUser._patch (Sample.bare "1") Sample.alice Sample.alice_client))
  = ClientUser._patch (Sample.bare "1") Sample.alice Sample.alice_client.
Proof.
  apply (patch_twice_is_patch_once Sample.plain (Sample.bare "1")
           Sample.alice Sample.alice_client).
  reflexivity.
Defined.

(** X2.  After [_patch], [premium] and [mobile] are a boolean or [null],
    whatever the payload holds under their keys (a string, a number, nothing);
    [mfaEnabled] is a boolean or [null] as soon as it was one of these, or
    still [undefined], before; and an object that the constructor has built
    has all three flags in this form. *)
Theorem patch_flags_are_tri_state :
  forall (UC : UserClass) (data : Data.t) (this : State.ClientUser) (client : State.Client),
    let this' := fst (ClientUser._patch data this client) in
    let built := fst (ClientUser.new client data) in
    ClientUserMethods.tri_state (State.premium this') = true /\
    ClientUserMethods.tri_state (State.mobile this') = true /\
    (ClientUserMethods.tri_state (State.mfaEnabled this) = true \/
     State.mfaEnabled this = JS.VUndefined ->
     ClientUserMethods.tri_state (State.mfaEnabled this') = true) /\
    (ClientUserMethods.tri_state (State.premium built) = true /\
     ClientUserMethods.tri_state (State.mobile built) = true /\
     ClientUserMethods.tri_state (State.mfaEnabled built) = true).
Proof.
  intros UC data this client. cbv zeta.
  assert (B : forall v, ClientUserMethods.tri_state (ClientUser.boolean_or_null v) = true)
    by (intros []; reflexivity).
  simpl. repeat split; try apply B.
  - intros H. destruct (Data.mfa_enabled data); [apply B|].
    destruct H as [H|H].
    + destruct (State.mfaEnabled this); try discriminate; reflexivity.
    + rewrite H. reflexivity.
  - destruct (Data.mfa_enabled data); [apply B | reflexivity].
Qed.

(** X3.  [guildSettings] is rebuilt from [data.user_guild_settings] alone: a
    guild id resolves to the settings object built from the last entry of
    the list with this id, and to nothing when the list has no such entry or
    the key holds no list; what the collection held before plays no part. *)
Theorem patch_guildSettings_last_entry_wins :
  forall (UC : UserClass) (data : Data.t) (this : State.ClientUser) (client : State.Client)
         (g : string),
    Collection.get g (State.guildSettings (fst (ClientUser._patch data this client)))
    = match Data.user_guild_settings data with
      | JS.RObj l =>
          option_map State.new_ClientUserGuildSettings
            (find (fun s => Data.guild_id s =? g) (rev l))
      | _ => None
      end.
Proof.
  intros UC data this client g. simpl.
  destruct (Data.user_guild_settings data) as [| |l]; try reflexivity.
  unfold ClientUser.build_guildSettings.
  rewrite (get_fold_set Data.guild_id State.new_ClientUserGuildSettings).
  destruct (find _ (rev l)); reflexivity.
Qed.

(** ** More on [ClientUser.edit] and the setters built on it *)

Section EditFacts.
Import State.
Context {UC : UserClass} {ApiError : Type}.
Variables (handle : Data.t -> Client -> Client * option ClientUser).

(** [edit] sends one request, whose body is the data with the credentials
    written into it, and returns what the answer to it gives. *)
Lemma edit_sends (api : JSObject -> ApiError + Data.t)
    (data body : JSObject) (passcode : ClientUser.Passcode) (client : Client)
    (this : ClientUser) :
  user client = Some this ->
  ClientUser.with_credentials (User_bot (inherited this)) data passcode = Some body ->
  ClientUser.edit api handle data passcode client
  = ClientUserMethods.edit_settled handle this client (api body).
Proof.
  intros Hu Hb. unfold ClientUser.edit, ClientUserMethods.edit_settled.
  rewrite Hu, Hb. destruct (api body) as [e|newData]; reflexivity.
Qed.

(** Once the credentials are in place, [edit] does not throw. *)
Lemma edit_settles (api : JSObject -> ApiError + Data.t)
    (data body : JSObject) (passcode : ClientUser.Passcode) (client : Client)
    (this : ClientUser) (msg : string) :
  user client = Some this ->
  ClientUser.with_credentials (User_bot (inherited this)) data passcode = Some body ->
  snd (ClientUser.edit api handle data passcode client) <> JS.Thrown msg.
Proof.
  intros Hu Hb. unfold ClientUser.edit. rewrite Hu, Hb.
  destruct (api body) as [e|newData]; simpl; [discriminate|].
  destruct (handle newData _) as [c' [u|]]; simpl; discriminate.
Qed.

End EditFacts.

(** X4.  For a bot account [edit] sends the data as given, whatever was
    passed as passcode ([null] included): the request goes out with exactly
    [data] as its body (no [password], no [code]), the call returns what the
    answer to that request gives (the rejection when it is rejected), and
    it does not throw. *)
Theorem edit_bot_sends_no_credentials :
  forall (UC : UserClass) (ApiError : Type)
         (api : JSObject -> ApiError + Data.t)
         (handle : Data.t -> State.Client -> State.Client * option State.ClientUser)
         (data : JSObject) (passcode : ClientUser.Passcode)
         (client : State.Client) (this : State.ClientUser),
    State.user client = Some this ->
    JS.truthy (User_bot (State.inherited this)) = true ->
    ClientUser.edit api handle data passcode client
    = ClientUserMethods.edit_settled handle this client (api data) /\
    (forall e, api data = inl e ->
               ClientUser.edit api handle data passcode client = (client, JS.Rejected e)) /\
    (forall msg, snd (ClientUser.edit api handle data passcode client) <> JS.Thrown msg).
Proof.
  intros UC ApiError api handle data passcode client this Hu Hbot.
  assert (Hb : ClientUser.with_credentials (User_bot (State.inherited this)) data passcode
               = Some data)
    by (unfold ClientUser.with_credentials; now rewrite Hbot).
  pose proof (edit_sends handle api data data passcode client this Hu Hb) as Hs.
  split; [exact Hs|]. split.
  - intros e He. rewrite Hs, He. reflexivity.
  - intros msg. now apply (edit_settles handle api data data passcode client this msg).
Qed.

(** A bot renames itself and passes [null] as passcode; the server refuses
    every body that has a [password] key, and accepts this one. *)
Lemma edit_bot_sends_no_credentials_witness :
  ClientUser.edit
    (fun b => if Collection.has "password" b then inl "400" else inr (Sample.bare "5"))
    (fun _ c => (c, None))
    [("username", JS.VStr "bot")] (ClientUser.PassValue JS.VNull) SampleBot.robo_client
  = (State.set_token JS.VUndefined SampleBot.robo_client, JS.Fulfilled SampleBot.robo).
Proof.
  apply (edit_bot_sends_no_credentials Sample.plain string
           (fun b => if Collection.has "password" b then inl "400" else inr (Sample.bare "5"))
           (fun _ c => (c, None))
           [("username", JS.VStr "bot")] (ClientUser.PassValue JS.VNull)
           SampleBot.robo_client SampleBot.robo);
    reflexivity.
Defined.

(** X5.  On a user account, [edit(data, null)] throws while it prepares the
    request ([typeof null] is ['object'], and [null.mfaCode] cannot be read):
    nothing is sent, whatever the server would have answered, and the client
    is unchanged. *)
Theorem edit_null_passcode_throws :
  forall (UC : UserClass) (ApiError : Type)
         (api : JSObject -> ApiError + Data.t)
         (handle : Data.t -> State.Client -> State.Client * option State.ClientUser)
         (data : JSObject) (client : State.Client) (this : State.ClientUser),
    State.user client = Some this ->
    JS.truthy (User_bot (State.inherited this)) = false ->
    ClientUser.edit api handle data (ClientUser.PassValue JS.VNull) client
    = (client, JS.Thrown "TypeError").
Proof.
  intros UC ApiError api handle data client this Hu Hbot.
  unfold ClientUser.edit, ClientUser.with_credentials.
  rewrite Hu, Hbot. reflexivity.
Qed.

Lemma edit_null_passcode_throws_witness :
  ClientUser.edit (fun _ => inr (Sample.bare "1")) (fun _ c => (c, None))
    [("username", JS.VStr "bob")] (ClientUser.PassValue JS.VNull) Sample.alice_client
  = (Sample.alice_client, @JS.Thrown string _ "TypeError").
Proof.
  apply (edit_null_passcode_throws Sample.plain string
           (fun _ => inr (Sample.bare "1")) (fun _ c => (c, None))
           [("username", JS.VStr "bob")] Sample.alice_client Sample.alice);
    reflexivity.
Defined.

(** X6.  A successful [edit] overwrites [client.token] with [newData.token]
    without looking at it: when [UserUpdate.handle] leaves the token alone,
    the token after the call is the one of the response, and it is
    [undefined] when the response carries none.  ([_patch], in contrast,
    keeps the token in that case.) *)
Theorem edit_success_overwrites_token :
  forall (UC : UserClass) (ApiError : Type)
         (api : JSObject -> ApiError + Data.t)
         (handle : Data.t -> State.Client -> State.Client * option State.ClientUser)
         (data body : JSObject) (passcode : ClientUser.Passcode)
         (client : State.Client) (this : State.ClientUser) (newData : Data.t),
    State.user client = Some this ->
    ClientUser.with_credentials (User_bot (State.inherited this)) data passcode = Some body ->
    api body = inr newData ->
    (forall d c, State.token (fst (handle d c)) = State.token c) ->
    State.token (fst (ClientUser.edit api handle data passcode client))
      = JS.prop (Data.token newData) /\
    (Data.token newData = None ->
     State.token (fst (ClientUser.edit api handle data passcode client)) = JS.VUndefined) /\
    exists u, snd (ClientUser.edit api handle data passcode client) = JS.Fulfilled u.
Proof.
  intros UC ApiError api handle data body passcode client this newData Hu Hb Ha Hh.
  unfold ClientUser.edit. rewrite Hu, Hb, Ha.
  pose proof (Hh newData (State.set_token (JS.prop (Data.token newData)) client)) as Ht.
  destruct (handle newData _) as [c' [u|]]; simpl in *.
  - rewrite Ht. split; [reflexivity|]. split; [now intros ->|]. eauto.
  - rewrite Ht. split; [reflexivity|]. split; [now intros ->|]. eauto.
Qed.

(** [alice] renames herself; the answer has no [token] key. *)
Lemma edit_success_overwrites_token_witness :
  State.token Sample.alice_client = JS.VStr "t0" /\
  State.token
    (fst (ClientUser.edit (fun _ => @inr string _ (Sample.bare "1")) (fun _ c => (c, None))
            [("username", JS.VStr "bob")] (ClientUser.PassValue (JS.VStr "secret"))
            Sample.alice_client))
  = JS.VUndefined.
Proof.
  split; [reflexivity|].
  apply (edit_success_overwrites_token Sample.plain string
           (fun _ => inr (Sample.bare "1")) (fun _ c => (c, None))
           [("username", JS.VStr "bob")]
           [("username", JS.VStr "bob"); ("password", JS.VStr "secret")]
           (ClientUser.PassValue (JS.VStr "secret"))
           Sample.alice_client Sample.alice (Sample.bare "1"));
    reflexivity.
Defined.

(** X7.  On a user account, [setUsername(username, password)] and
    [setEmail(email, password)] with a password that is not [null] send
    exactly [{ username, password }] and [{ email, password }] and return
    what the answer to that request gives. *)
Theorem setUsername_setEmail_request_body :
  forall (UC : UserClass) (ApiError : Type)
         (api : JSObject -> ApiError + Data.t)
         (handle : Data.t -> State.Client -> State.Client * option State.ClientUser)
         (value password : JS.value) (client : State.Client) (this : State.ClientUser),
    State.user client = Some this ->
    JS.truthy (User_bot (State.inherited this)) = false ->
    password <> JS.VNull ->
    ClientUserMethods.setUsername api handle value (ClientUser.PassValue password) client
    = ClientUserMethods.edit_settled handle this client
        (api [("username", value); ("password", password)]) /\
    ClientUserMethods.setEmail api handle value (ClientUser.PassValue password) client
    = ClientUserMethods.edit_settled handle this client
        (api [("email", value); ("password", password)]).
Proof.
  intros UC ApiError api handle value password client this Hu Hbot Hp.
  assert (Ht : (JS.typeof password =? "object") = false)
    by (destruct password; try reflexivity; contradiction).
  split;
    unfold ClientUserMethods.setUsername, ClientUserMethods.setEmail;
    apply edit_sends; try exact Hu;
    unfold ClientUser.with_credentials; rewrite Hbot, Ht; reflexivity.
Qed.

(** [alice] renames herself; the server throttles every request that comes
    with a password. *)
Lemma setUsername_setEmail_request_body_witness :
  ClientUserMethods.setUsername
    (fun b => if Collection.has "password" b then inl "429" else inr (Sample.bare "1"))
    (fun _ c => (c, None)) (JS.VStr "bob") (ClientUser.PassValue (JS.VStr "secret"))
    Sample.alice_client
  = (Sample.alice_client, JS.Rejected "429").
Proof.
  apply (setUsername_setEmail_request_body Sample.plain string
           (fun b => if Collection.has "password" b then inl "429" else inr (Sample.bare "1"))
           (fun _ c => (c, None))
           (JS.VStr "bob") (JS.VStr "secret") Sample.alice_client Sample.alice);
    try reflexivity.
  discriminate.
Defined.

(** X8.  On a user account, [setPassword(newPassword, { oldPassword,
    mfaCode })] sends exactly [{ new_password, code: mfaCode, password:
    oldPassword }] and returns what the answer to that request gives; called
    without the options object it throws before anything is sent and leaves
    the client unchanged. *)
Theorem setPassword_request_body :
  forall (UC : UserClass) (ApiError : Type)
         (api : JSObject -> ApiError + Data.t)
         (handle : Data.t -> State.Client -> State.Client * option State.ClientUser)
         (newPassword : JS.value) (o : ClientUserMethods.PasswordOptions)
         (client : State.Client) (this : State.ClientUser),
    State.user client = Some this ->
    JS.truthy (User_bot (State.inherited this)) = false ->
    ClientUserMethods.setPassword api handle newPassword (Some o) client
    = ClientUserMethods.edit_settled handle this client
        (api [("new_password", newPassword);
              ("code", ClientUserMethods.mfaCode o);
              ("password", ClientUserMethods.oldPassword o)]) /\
    ClientUserMethods.setPassword api handle newPassword None client
    = (client, JS.Thrown "TypeError").
Proof.
  intros UC ApiError api handle newPassword o client this Hu Hbot.
  split; [|reflexivity].
  unfold ClientUserMethods.setPassword.
  apply edit_sends; try exact Hu.
  unfold ClientUser.with_credentials. rewrite Hbot. reflexivity.
Qed.

(** [alice] changes her password; the server rejects the request because
    the code is missing. *)
Lemma setPassword_request_body_witness :
  ClientUserMethods.setPassword
    (fun b => match Collection.get "code" b with
              | Some JS.VUndefined => inl "400: code required"
              | _ => inr (Sample.bare "1")
              end)
    (fun _ c => (c, None)) (JS.VStr "new")
    (Some {| ClientUserMethods.oldPassword := JS.VStr "old";
             ClientUserMethods.mfaCode := JS.VUndefined |})
    Sample.alice_client
  = (Sample.alice_client, JS.Rejected "400: code required").
Proof.
  apply (setPassword_request_body Sample.plain string
           (fun b => match Collection.get "code" b with
              | Some JS.VUndefined => inl "400: code required"
              | _ => inr (Sample.bare "1")
              end)
           (fun _ c => (c, None)) (JS.VStr "new")
           {| ClientUserMethods.oldPassword := JS.VStr "old";
              ClientUserMethods.mfaCode := JS.VUndefined |}
           Sample.alice_client Sample.alice);
    reflexivity.
Defined.

(** X9.  [setAvatar] sends nothing when the image cannot be resolved (the
    rejection is passed on and the client is unchanged); on a user account
    the request it sends is [{ avatar, password: undefined }], since [edit]
    is called without a passcode, and it returns what the answer to that
    request gives. *)
Theorem setAvatar_request_body :
  forall (UC : UserClass) (ApiError : Type)
         (api : JSObject -> ApiError + Data.t)
         (handle : Data.t -> State.Client -> State.Client * option State.ClientUser)
         (avatar : JS.value) (e : ApiError)
         (client : State.Client) (this : State.ClientUser),
    State.user client = Some this ->
    JS.truthy (User_bot (State.inherited this)) = false ->
    ClientUserMethods.setAvatar api handle (inl e) client = (client, JS.Rejected e) /\
    ClientUserMethods.setAvatar api handle (inr avatar) client
    = ClientUserMethods.edit_settled handle this client
        (api [("avatar", avatar); ("password", JS.VUndefined)]).
Proof.
  intros UC ApiError api handle avatar e client this Hu Hbot.
  split; [reflexivity|].
  unfold ClientUserMethods.setAvatar.
  apply edit_sends; try exact Hu.
  unfold ClientUser.with_credentials. rewrite Hbot. reflexivity.
Qed.

(** [alice] sets an avatar; the server rejects a body whose password is
    [undefined]. *)
Lemma setAvatar_request_body_witness :
  ClientUserMethods.setAvatar
    (fun b => match Collection.get "password" b with
              | Some JS.VUndefined => inl "400: password required"
              | _ => inr (Sample.bare "1")
              end)
    (fun _ c => (c, None)) (inr (JS.VStr "data:image/png;base64,AAAA")) Sample.alice_client
  = (Sample.alice_client, JS.Rejected "400: password required").
Proof.
  apply (setAvatar_request_body Sample.plain string
           (fun b => match Collection.get "password" b with
                     | Some JS.VUndefined => inl "400: password required"
                     | _ => inr (Sample.bare "1")
                     end)
           (fun _ c => (c, None)) (JS.VStr "data:image/png;base64,AAAA") "ENOENT"
           Sample.alice_client Sample.alice);
    reflexivity.
Defined.

(** ** More on [ClientApplication._patch] *)

Section ApplicationFacts.
Import State.
Context {UC : UserClass} {AC : ApplicationClass}.
Variables (data : ClientApplication.Data) (this : ClientApplication.t) (client : Client).

(** The fields other than [owner], read off the result. *)
Lemma application_patch_fields :
  let this' := fst (ClientApplication._patch data this client) in
  ClientApplication.inherited this'
    = Application_patch (ClientApplication.base data) (ClientApplication.inherited this) /\
  ClientApplication.cover this'
    = (if JS.truthy (JS.prop (ClientApplication.cover_image data))
       then JS.prop (ClientApplication.cover_image data) else JS.VNull) /\
  ClientApplication.rpcOrigins this'
    = match ClientApplication.rpc_origins data with JS.RObj l => l | _ => [] end /\
  ClientApplication.botRequireCodeGrant this'
    = ClientApplication.defined_or_null
        (JS.prop (ClientApplication.bot_require_code_grant data)) /\
  ClientApplication.botPublic this'
    = ClientApplication.defined_or_null (JS.prop (ClientApplication.bot_public data)).
Proof.
  unfold ClientApplication._patch.
  destruct (ClientApplication.team data) as [| |tm];
    destruct (ClientApplication.d_owner data) as [| |o]; simpl;
    try destruct (UserStore.add o client); simpl; auto.
Qed.

End ApplicationFacts.

(** Resolving a user keeps every cached entry, adds at most the key of the
    payload, and resolving the same payload again changes nothing. *)
Lemma users_add_keeps_entries :
  forall (UC : UserClass) (d : UserData) (client : State.Client),
    (forall k x, Collection.get k (State.users client) = Some x ->
                 Collection.get k (State.users (fst (UserStore.add d client))) = Some x) /\
    (forall k, Collection.has k (State.users (fst (UserStore.add d client)))
               = (UserData_id d =? k) || Collection.has k (State.users client)) /\
    State.user (fst (UserStore.add d client)) = State.user client /\
    State.token (fst (UserStore.add d client)) = State.token client /\
    State.guilds (fst (UserStore.add d client)) = State.guilds client /\
    State.constructed (fst (UserStore.add d client)) = State.constructed client /\
    UserStore.add d (fst (UserStore.add d client)) = UserStore.add d client.
Proof.
  intros UC d client. unfold UserStore.add.
  destruct (Collection.get (UserData_id d) (State.users client)) eqn:G; simpl.
  - rewrite G. repeat split; auto.
    intros k. destruct (UserData_id d =? k) eqn:E; [|reflexivity].
    apply String.eqb_eq in E. subst k. unfold Collection.has. now rewrite G.
  - rewrite get_set_eq. repeat split; auto.
    + intros k x Hk. rewrite get_set_neq; [exact Hk|]. congruence.
    + intros k. apply has_set.
Qed.

(** X10.  [ClientApplication._patch] normalises what it stores: [cover] is
    [null] or a truthy value (never the empty string or [undefined]);
    [botPublic] and [botRequireCodeGrant] are never [undefined], and a
    flag sent as [false] stays [false] (only a missing flag becomes [null]);
    [rpcOrigins] is the empty list when the payload has none. *)
Theorem application_patch_normalises :
  forall (UC : UserClass) (AC : ApplicationClass)
         (data : ClientApplication.Data) (this : ClientApplication.t) (client : State.Client),
    let this' := fst (ClientApplication._patch data this client) in
    (ClientApplication.cover this' = JS.VNull \/
     JS.truthy (ClientApplication.cover this') = true) /\
    ClientApplication.botPublic this' <> JS.VUndefined /\
    ClientApplication.botRequireCodeGrant this' <> JS.VUndefined /\
    (forall b, ClientApplication.bot_public data = Some (JS.VBool b) ->
               ClientApplication.botPublic this' = JS.VBool b) /\
    (forall b, ClientApplication.bot_require_code_grant data = Some (JS.VBool b) ->
               ClientApplication.botRequireCodeGrant this' = JS.VBool b) /\
    (ClientApplication.bot_public data = None ->
     ClientApplication.botPublic this' = JS.VNull) /\
    (JS.truthy_ref (ClientApplication.rpc_origins data) = false ->
     ClientApplication.rpcOrigins this' = []).
Proof.
  intros UC AC data this client. cbv zeta.
  destruct (application_patch_fields data this client) as (_ & Hc & Hr & Hg & Hp).
  rewrite Hc, Hr, Hg, Hp.
  assert (D : forall v, ClientApplication.defined_or_null v <> JS.VUndefined)
    by (intros []; discriminate).
  split.
  { destruct (JS.truthy (JS.prop (ClientApplication.cover_image data))) eqn:E; auto. }
  split; [apply D|]. split; [apply D|].
  split; [now intros b ->|]. split; [now intros b ->|]. split; [now intros ->|].
  destruct (ClientApplication.rpc_origins data); simpl; auto; discriminate.
Qed.

(** X11.  [ClientApplication._patch] overwrites every field of its own: the
    result does not depend on what the object held before, and applying the
    payload again, to the client as the first application left it, gives
    the same object and the same client (as far as the inherited [_patch]
    agrees). *)
Theorem application_patch_overwrites :
  forall (UC : UserClass) (AC : ApplicationClass)
         (data : ClientApplication.Data) (this other : ClientApplication.t)
         (client : State.Client),
    Application_patch (ClientApplication.base data) (ClientApplication.inherited other)
      = Application_patch (ClientApplication.base data) (ClientApplication.inherited this) ->
    ClientApplication._patch data other client = ClientApplication._patch data this client /\
    ClientApplication._patch data other (snd (ClientApplication._patch data this client))
      = ClientApplication._patch data this client.
Proof.
  intros UC AC data this other client H.
  unfold ClientApplication._patch.
  destruct (ClientApplication.team data) as [| |tm];
    destruct (ClientApplication.d_owner data) as [| |o]; simpl; rewrite ?H; auto.
  all: destruct (users_add_keeps_entries UC o client) as (_ & _ & _ & _ & _ & _ & Hagain);
    destruct (UserStore.add o client) as [c1 u1] eqn:E; simpl in *;
    rewrite ?Hagain, ?H; auto.
Qed.

Lemma application_patch_overwrites_witness :
  ClientApplication._patch SampleApp.personal_app
    (fst (ClientApplication._patch SampleApp.personal_app SampleApp.blank Sample.fresh_client))
    (snd (ClientApplication._patch SampleApp.personal_app SampleApp.blank Sample.fresh_client))
  = ClientApplication._patch SampleApp.personal_app SampleApp.blank Sample.fresh_client.
Proof.
  apply (application_patch_overwrites Sample.plain SampleApp.plain SampleApp.personal_app
           SampleApp.blank
           (fst (ClientApplication._patch SampleApp.personal_app SampleApp.blank
                   Sample.fresh_client))
           Sample.fresh_client).
  reflexivity.
Defined.

(** ** More on the READY handler *)

Section ReadyFrames.
Import State.
Context {UC : UserClass}.

(** The first step and the token, the guilds and the user store. *)
Lemma init_user_client (client : Client) (data : Data.Ready) :
  let client' := fst (Ready.init_user client data) in
  token client'
    = (if JS.truthy (JS.prop (Data.token (Data.user data)))
       then JS.prop (Data.token (Data.user data)) else token client) /\
  guilds client' = guilds client /\
  (forall k, Collection.has k (users client) = true ->
             Collection.has k (users client') = true).
Proof.
  unfold Ready.init_user. destruct (user client) as [u|]; simpl.
  - destruct (JS.truthy (JS.prop (Data.token (Data.user data)))); simpl; auto.
  - destruct (JS.truthy (JS.prop (Data.token (Data.user data)))); simpl;
      repeat split; auto; intros k Hk; rewrite has_set, Hk; apply orb_true_r.
Qed.

(** The first step, on a client without user object: the object is cached
    under its id, and its settings are those of the packet. *)
Lemma init_user_first (client : Client) (data : Data.Ready) :
  user client = None ->
  exists u,
    user (fst (Ready.init_user client data)) = Some u /\
    Collection.get (User_id (inherited u)) (users (fst (Ready.init_user client data)))
      = Some CachedClientUser /\
    settings u = match Data.r_user_settings data with
                 | JS.RObj s => Some (new_ClientUserSettings s)
                 | _ => None
                 end /\
    guildSettings u = match Data.r_user_guild_settings data with
                      | JS.RObj l => ClientUser.build_guildSettings l
                      | _ => Collection.empty
                      end /\
    Data.user_settings (Data.user (snd (Ready.init_user client data)))
      = Data.r_user_settings data /\
    Data.user_guild_settings (Data.user (snd (Ready.init_user client data)))
      = Data.r_user_guild_settings data.
Proof.
  intros Hu. unfold Ready.init_user. rewrite Hu. simpl.
  eexists. split; [reflexivity|]. simpl.
  split; [|repeat split].
  destruct (JS.truthy (JS.prop (Data.token (Data.user data)))); simpl; apply get_set_eq.
Qed.

Lemma add_guilds_guilds (shard : Ready.Shard) (l : list Data.Guild) (client : Client) :
  guilds (Ready.add_guilds shard l client)
  = fold_left
      (fun m g => Collection.set (Data.g_id g) (Data.set_shardID (Ready.id shard) g) m)
      l (guilds client).
Proof.
  unfold Ready.add_guilds. revert client.
  induction l as [|g l IH]; intros client; simpl; [reflexivity|].
  rewrite IH. reflexivity.
Qed.

(** One relationship record keeps the guilds and every cached user. *)
Lemma add_relation_keeps (client : Client) (r : Data.Relation) :
  guilds (Ready.add_relation client r) = guilds client /\
  (forall k x, Collection.get k (users client) = Some x ->
               Collection.get k (users (Ready.add_relation client r)) = Some x).
Proof.
  unfold Ready.add_relation.
  destruct (users_add_keeps_entries UC (Data.rel_user r) client)
    as (Hk & _ & Hu & _ & Hg & _).
  destruct (UserStore.add (Data.rel_user r) client) as [c1 u1]. simpl in *.
  unfold Ready.friends_set, Ready.blocked_set.
  destruct (Data.rel_type r =? 1)%Z; [|destruct (Data.rel_type r =? 2)%Z];
    destruct (user c1); simpl; auto.
Qed.

Lemma add_relations_keeps (l : list Data.Relation) :
  forall client : Client,
    guilds (Ready.add_relations l client) = guilds client /\
    (forall k x, Collection.get k (users client) = Some x ->
                 Collection.get k (users (Ready.add_relations l client)) = Some x).
Proof.
  induction l as [|r l IH]; intros client; [simpl; auto|].
  rewrite add_relations_cons.
  destruct (add_relation_keeps client r) as (Hg1 & Hk1).
  destruct (IH (Ready.add_relation client r)) as (Hg & Hk).
  split; [congruence | auto].
Qed.

(** The note step keeps the guilds. *)
Lemma add_notes_guilds (n : JS.ref (list (string * string))) (client : Client) :
  guilds (Ready.add_notes n client) = guilds client.
Proof.
  destruct n as [| |l]; simpl; try reflexivity.
  revert client. induction l as [|[k v] l IH]; intros client; simpl; [reflexivity|].
  rewrite IH. unfold Ready.notes_set. destruct (user client); reflexivity.
Qed.

(** The note loop, as a loop of [set] calls on [notes]. *)
Lemma add_notes_fold (l : list (string * string)) :
  forall (client : Client) (u : ClientUser),
    user client = Some u ->
    option_map notes (user (Ready.add_notes (JS.RObj l) client))
    = Some (fold_left (fun m e => Collection.set (fst e) (Note.normalize (snd e)) m)
              l (notes u)).
Proof.
  change (forall (client : Client) (u : ClientUser),
            user client = Some u ->
            option_map notes (user (fold_left Ready.add_note l client))
            = Some (fold_left (fun m e => Collection.set (fst e) (Note.normalize (snd e)) m)
                      l (notes u))).
  induction l as [|[k v] l IH]; intros client u Hu; cbn [fold_left].
  - now rewrite Hu.
  - assert (H1 : user (Ready.add_note client (k, v))
                 = Some (set_notes (Collection.set k (Note.normalize v) (notes u)) u)).
    { unfold Ready.add_note, Ready.notes_set. rewrite Hu. reflexivity. }
    rewrite (IH _ _ H1). reflexivity.
Qed.

End ReadyFrames.

(** Writing a stored note keeps a collection of stored notes. *)
Lemma all_stored_set (k : string) (v : JS.value) (m : Collection.t JS.value) :
  Note.all_stored m = true -> Note.stored v = true ->
  Note.all_stored (Collection.set k v m) = true.
Proof.
  unfold Note.all_stored. intros Hm Hv.
  induction m as [|[k' v'] r IH]; simpl in *.
  - now rewrite Hv.
  - apply andb_true_iff in Hm. destruct Hm as [H1 H2].
    destruct (k' =? k); simpl.
    + now rewrite Hv, H2.
    + now rewrite H1, IH.
Qed.

Lemma normalize_stored (s : string) : Note.stored (Note.normalize s) = true.
Proof. destruct s; reflexivity. Qed.

(** X13.  When the packet has a [notes] object, the notes after the handler
    are exactly its entries, normalised: a user id resolves to the
    normalised note of the (last) entry with this id and to nothing when
    there is no such entry, whatever was cached before; and every stored
    note is [null] or a non-empty string. *)
Theorem ready_notes_are_those_of_the_packet :
  forall (UC : UserClass) (client : State.Client) (data : Data.Ready) (shard : Ready.Shard)
         (l : list (string * string)),
    Data.notes data = JS.RObj l ->
    exists u',
      State.user (Ready.client_of (Ready.handler client data shard)) = Some u' /\
      (forall k, Collection.get k (State.notes u')
                 = option_map (fun e => Note.normalize (snd e))
                     (find (fun e => fst e =? k) (rev l))) /\
      Note.all_stored (State.notes u') = true.
Proof.
  intros UC client data shard l Hl.
  unfold Ready.handler, Ready.client_of.
  destruct (init_user_some client data) as (u1 & Hu1 & _ & _ & Hn1).
  destruct (init_user_packet client data) as (_ & _ & Hnotes).
  destruct (Ready.init_user client data) as [c1 d1]. simpl in *.
  rewrite Hnotes, Hl.
  destruct (add_guilds_frame shard (Data.guilds d1) c1) as (Hg & _).
  rewrite <- Hg in Hu1.
  destruct (add_relations_spec (Data.relationships d1) _ u1 Hu1)
    as (u3 & Hu3 & _ & _ & _ & _ & Hfr & _).
  assert (Hn3 : State.notes u3 = Collection.empty)
    by (rewrite <- Hn1, <- Hfr; reflexivity).
  pose proof (add_notes_fold l _ u3 Hu3) as Hfold. rewrite Hn3 in Hfold.
  destruct (State.user (Ready.add_notes (JS.RObj l) _)) as [u4|]; [|discriminate].
  simpl in Hfold. injection Hfold as Hfold.
  exists u4. split; [reflexivity|]. rewrite Hfold. split.
  - intros k.
    rewrite (get_fold_set fst (fun e : string * string => Note.normalize (snd e))).
    destruct (find _ (rev l)); reflexivity.
  - clear. generalize (@Collection.empty JS.value) (eq_refl : Note.all_stored (@Collection.empty JS.value) = true).
    induction l as [|e l IH]; intros acc Hacc; simpl; [exact Hacc|].
    apply IH. apply all_stored_set; [exact Hacc | apply normalize_stored].
Qed.

(** [alice] had the note ['hi'] for user 2; the packet has notes for A and
    B only. *)
Lemma ready_notes_are_those_of_the_packet_witness :
  exists u',
    State.user (Ready.client_of
                  (Ready.handler Sample.alice_client SampleFull.packet SampleFull.shard3))
    = Some u' /\
    (forall k, Collection.get k (State.notes u')
               = option_map (fun e => Note.normalize (snd e))
                   (find (fun e => fst e =? k) (rev [("A", "hi"); ("B", "")]))) /\
    Note.all_stored (State.notes u') = true.
Proof.
  apply (ready_notes_are_those_of_the_packet Sample.plain Sample.alice_client
           SampleFull.packet SampleFull.shard3 [("A", "hi"); ("B", "")]).
  reflexivity.
Defined.

Section ReadyWhole.
Import State.
Context {UC : UserClass}.
Variables (client : Client) (data : Data.Ready) (shard : Ready.Shard).

(** The user object after the handler is the one of the first step, up to
    [friends], [blocked] and [notes]. *)
Lemma handler_user_frame :
  exists u1 u',
    user (fst (Ready.init_user client data)) = Some u1 /\
    user (Ready.client_of (Ready.handler client data shard)) = Some u' /\
    set_friends (friends u1) (set_blocked (blocked u1) (set_notes (notes u1) u')) = u1.
Proof.
  unfold Ready.handler, Ready.client_of.
  destruct (init_user_some client data) as (u1 & Hu1 & _).
  destruct (Ready.init_user client data) as [c1 d1]. cbn [fst snd] in *.
  destruct (add_guilds_frame shard (Data.guilds d1) c1) as (Hg & _).
  pose proof Hu1 as Hu2. rewrite <- Hg in Hu2.
  destruct (add_relations_spec (Data.relationships d1) _ u1 Hu2)
    as (u3 & Hu3 & _ & _ & _ & _ & Hfr3 & _).
  destruct (add_notes_frame (Data.notes d1) _ u3 Hu3) as (u4 & Hu4 & Hfr4 & _).
  exists u1, u4. split; [exact Hu1|]. split; [exact Hu4|].
  clear - Hfr3 Hfr4. destruct u1, u3, u4.
  unfold set_friends, set_blocked, set_notes in *. cbn in *. congruence.
Qed.

(** The client after the handler, apart from the user object. *)
Lemma handler_client_frame :
  let client' := Ready.client_of (Ready.handler client data shard) in
  token client' = token (fst (Ready.init_user client data)) /\
  constructed client' = constructed (fst (Ready.init_user client data)) /\
  guilds client'
    = fold_left
        (fun m g => Collection.set (Data.g_id g) (Data.set_shardID (Ready.id shard) g) m)
        (Data.guilds data) (guilds (fst (Ready.init_user client data))) /\
  (forall k x, Collection.get k (users (fst (Ready.init_user client data))) = Some x ->
               Collection.get k (users client') = Some x) /\
  (forall k, Collection.has k (users (fst (Ready.init_user client data))) = true ->
             Collection.has k (users client') = true).
Proof.
  unfold Ready.handler, Ready.client_of.
  destruct (init_user_some client data) as (u1 & Hu1 & _).
  destruct (init_user_packet client data) as (Hgd & _).
  destruct (Ready.init_user client data) as [c1 d1]. cbn [fst snd] in *.
  destruct (add_guilds_frame shard (Data.guilds d1) c1) as (Hg & Hgu & Hgt & Hgc).
  pose proof Hu1 as Hu2. rewrite <- Hg in Hu2.
  destruct (add_relations_spec (Data.relationships d1) _ u1 Hu2)
    as (u3 & Hu3 & _ & _ & _ & _ & _ & Hus & Ht3 & Hc3).
  destruct (add_relations_keeps (Data.relationships d1)
              (Ready.add_guilds shard (Data.guilds d1) c1)) as (Hg3 & Hk3).
  destruct (add_notes_frame (Data.notes d1) _ u3 Hu3) as (u4 & _ & _ & Hus4 & Ht4 & Hc4).
  rewrite add_notes_guilds, Hg3, add_guilds_guilds, Hus4, Ht4, Hc4.
  split; [congruence|]. split; [congruence|]. split; [now rewrite Hgd|]. split.
  - intros k x Hk. apply Hk3. now rewrite Hgu.
  - intros k Hk. apply Hus. left. now rewrite Hgu.
Qed.

End ReadyWhole.

(** X15.  The handler never evicts a user from the user store: every key
    cached before is cached afterwards; and the first READY packet caches
    the new user object under its own id. *)
Theorem ready_keeps_user_store :
  forall (UC : UserClass) (client : State.Client) (data : Data.Ready) (shard : Ready.Shard),
    let client' := Ready.client_of (Ready.handler client data shard) in
    (forall k, Collection.has k (State.users client) = true ->
               Collection.has k (State.users client') = true) /\
    (State.user client = None ->
     exists u', State.user client' = Some u' /\
                Collection.get (User_id (State.inherited u')) (State.users client')
                = Some State.CachedClientUser).
Proof.
  intros UC client data shard. cbv zeta.
  destruct (handler_client_frame client data shard) as (_ & _ & _ & Hk & Hh).
  destruct (init_user_client client data) as (_ & _ & Hh0).
  split; [intros k H; apply Hh, Hh0, H|].
  intros Hnone.
  destruct (init_user_first client data Hnone) as (u1 & Hu1 & Hself & _).
  destruct (handler_user_frame client data shard) as (u1' & u' & Hu1' & Hu' & Hfr).
  rewrite Hu1 in Hu1'. injection Hu1' as <-.
  exists u'. split; [exact Hu'|].
  replace (State.inherited u') with (State.inherited u1)
    by (rewrite <- Hfr; reflexivity).
  now apply Hk.
Qed.

(** X16.  The token of the client after the handler is the token of
    [data.user] when that value is truthy, and the token the client had
    otherwise; guilds, relationships and notes never write it. *)
Theorem ready_token :
  forall (UC : UserClass) (client : State.Client) (data : Data.Ready) (shard : Ready.Shard),
    State.token (Ready.client_of (Ready.handler client data shard))
    = (if JS.truthy (JS.prop (Data.token (Data.user data)))
       then JS.prop (Data.token (Data.user data)) else State.token client).
Proof.
  intros UC client data shard.
  destruct (handler_client_frame client data shard) as (Ht & _).
  destruct (init_user_client client data) as (Ht0 & _).
  now rewrite Ht, Ht0.
Qed.

(** X17.  The first READY packet builds the user object with the settings
    of the packet: [settings] comes from the top-level [user_settings] and
    [guildSettings] from the top-level [user_guild_settings] (the last entry
    of a guild winning), whatever [data.user] held under these keys; the
    packet is left with both attached to [data.user]. *)
Theorem ready_first_uses_packet_settings :
  forall (UC : UserClass) (client : State.Client) (data : Data.Ready) (shard : Ready.Shard),
    State.user client = None ->
    let result := Ready.handler client data shard in
    exists u',
      State.user (Ready.client_of result) = Some u' /\
      State.settings u'
      = match Data.r_user_settings data with
        | JS.RObj s => Some (State.new_ClientUserSettings s)
        | _ => None
        end /\
      (forall g, Collection.get g (State.guildSettings u')
                 = match Data.r_user_guild_settings data with
                   | JS.RObj l =>
                       option_map State.new_ClientUserGuildSettings
                         (find (fun s => Data.guild_id s =? g) (rev l))
                   | _ => None
                   end) /\
      Data.user_settings (Data.user (snd (fst result))) = Data.r_user_settings data /\
      Data.user_guild_settings (Data.user (snd (fst result)))
      = Data.r_user_guild_settings data.
Proof.
  intros UC client data shard Hnone. cbv zeta.
  destruct (init_user_first client data Hnone) as (u1 & Hu1 & _ & Hs & Hgs & Hd1 & Hd2).
  destruct (handler_user_frame client data shard) as (u1' & u' & Hu1' & Hu' & Hfr).
  rewrite Hu1 in Hu1'. injection Hu1' as <-.
  exists u'. split; [exact Hu'|].
  replace (State.settings u') with (State.settings u1) by (rewrite <- Hfr; reflexivity).
  replace (State.guildSettings u') with (State.guildSettings u1)
    by (rewrite <- Hfr; reflexivity).
  split; [exact Hs|]. split.
  - intros g. rewrite Hgs.
    destruct (Data.r_user_guild_settings data) as [| |l]; try reflexivity.
    unfold ClientUser.build_guildSettings.
    rewrite (get_fold_set Data.guild_id State.new_ClientUserGuildSettings).
    destruct (find _ (rev l)); reflexivity.
  - unfold Ready.handler.
    destruct (Ready.init_user client data) as [c1 d1]. cbn [fst snd] in *.
    unfold Ready.tag_guilds. cbn [Data.user]. auto.
Qed.

Lemma ready_first_uses_packet_settings_witness :
  exists u',
    State.user (Ready.client_of
                  (Ready.handler Sample.fresh_client SampleFull.packet SampleFull.shard3))
    = Some u' /\
    State.settings u' = Some (State.new_ClientUserSettings [("theme", JS.VStr "dark")]).
Proof.
  destruct (ready_first_uses_packet_settings Sample.plain Sample.fresh_client
              SampleFull.packet SampleFull.shard3 eq_refl) as (u' & Hu & Hs & _).
  exists u'. split; [exact Hu | exact Hs].
Defined.

(** ** Relationships in the order of the packet *)

Lemma NoDup_map_injective {A B : Type} (f : A -> B) (l : list A) :
  NoDup (map f l) -> forall a b, In a l -> In b l -> f a = f b -> a = b.
Proof.
  induction l as [|x l IH]; simpl; intros Hnd a b Ha Hb Hf; [contradiction|].
  inversion Hnd as [|? ? Hnotin Hnd']; subst.
  destruct Ha as [<-|Ha], Hb as [<-|Hb]; auto.
  - exfalso. apply Hnotin. rewrite Hf. now apply in_map.
  - exfalso. apply Hnotin. rewrite <- Hf. now apply in_map.
Qed.

Section RelationsInOrder.
Import State.
Context {UC : UserClass}.

(** The entry that the loop writes for a record. *)
Let entry (r : Data.Relation) : string * UserRef :=
  (Ready.rel_id r, ref_user (Ready.rel_id r)).

(** With one record per user, and none of these users in [friends] or
    [blocked] yet, the loop appends the records of type 1 to [friends] and
    those of type 2 to [blocked], in the order of the list. *)
Lemma add_relations_appends (l : list Data.Relation) :
  forall (client : Client) (u : ClientUser),
    user client = Some u ->
    NoDup (map Ready.rel_id l) ->
    (forall r, In r l ->
       Collection.get (Ready.rel_id r) (friends u) = None /\
       Collection.get (Ready.rel_id r) (blocked u) = None) ->
    exists u',
      user (Ready.add_relations l client) = Some u' /\
      friends u'
        = (friends u ++ map entry (filter (fun r => (Data.rel_type r =? 1)%Z) l))%list /\
      blocked u'
        = (blocked u ++ map entry (filter (fun r => (Data.rel_type r =? 2)%Z) l))%list.
Proof.
  induction l as [|r l IH]; intros client u Hu Hnd Hfresh.
  - exists u. simpl. rewrite Hu, !app_nil_r. auto.
  - rewrite add_relations_cons.
    destruct (add_relation_step client r u Hu) as (u1 & Hu1 & Hf1 & Hb1 & _).
    inversion Hnd as [|? ? Hnotin Hnd']; subst.
    assert (Hne : forall r', In r' l -> Ready.rel_id r <> Ready.rel_id r').
    { intros r' Hin Heq. apply Hnotin. rewrite Heq. now apply in_map. }
    destruct (Hfresh r (or_introl eq_refl)) as (Hfr & Hbr).
    destruct (IH _ u1 Hu1 Hnd') as (u' & Hu' & Hf & Hb).
    { intros r' Hin. destruct (Hfresh r' (or_intror Hin)) as (H1 & H2).
      rewrite Hf1, Hb1.
      destruct (Data.rel_type r =? 1)%Z; [|destruct (Data.rel_type r =? 2)%Z];
        rewrite ?get_set_neq by (now apply Hne); auto. }
    exists u'. split; [exact Hu'|].
    rewrite Hf, Hb, Hf1, Hb1. cbn [filter].
    destruct (Data.rel_type r =? 1)%Z eqn:E1.
    + apply Z.eqb_eq in E1. rewrite E1. cbn [Z.eqb Pos.eqb].
      rewrite (set_fresh _ _ _ Hfr), <- app_assoc. auto.
    + destruct (Data.rel_type r =? 2)%Z eqn:E2.
      * rewrite (set_fresh _ _ _ Hbr), <- app_assoc. auto.
      * auto.
Qed.

End RelationsInOrder.

(** X18.  When the packet has one relationship record per user, [friends]
    after the handler is the list of the records of type 1 and [blocked] the
    list of the records of type 2, each in the order of the packet and each
    entry mapping the id of the user to the reference to the cached user; no
    user is in both. *)
Theorem ready_relationships_in_order :
  forall (UC : UserClass) (client : State.Client) (data : Data.Ready) (shard : Ready.Shard),
    NoDup (map Ready.rel_id (Data.relationships data)) ->
    exists u',
      State.user (Ready.client_of (Ready.handler client data shard)) = Some u' /\
      State.friends u'
      = map (fun r => (Ready.rel_id r, State.ref_user (Ready.rel_id r)))
          (filter (fun r => (Data.rel_type r =? 1)%Z) (Data.relationships data)) /\
      State.blocked u'
      = map (fun r => (Ready.rel_id r, State.ref_user (Ready.rel_id r)))
          (filter (fun r => (Data.rel_type r =? 2)%Z) (Data.relationships data)) /\
      (forall k, Collection.has k (State.friends u') = true ->
                 Collection.has k (State.blocked u') = false).
Proof.
  intros UC client data shard Hnd.
  assert (H : exists u',
      State.user (Ready.client_of (Ready.handler client data shard)) = Some u' /\
      State.friends u'
      = map (fun r => (Ready.rel_id r, State.ref_user (Ready.rel_id r)))
          (filter (fun r => (Data.rel_type r =? 1)%Z) (Data.relationships data)) /\
      State.blocked u'
      = map (fun r => (Ready.rel_id r, State.ref_user (Ready.rel_id r)))
          (filter (fun r => (Data.rel_type r =? 2)%Z) (Data.relationships data))).
  { unfold Ready.handler, Ready.client_of.
    destruct (init_user_some client data) as (u1 & Hu1 & Hf1 & Hb1 & _).
    destruct (init_user_packet client data) as (_ & Hrel & _).
    destruct (Ready.init_user client data) as [c1 d1]. cbn [fst snd] in *.
    destruct (add_guilds_frame shard (Data.guilds d1) c1) as (Hg & _).
    rewrite <- Hg in Hu1. rewrite Hrel.
    destruct (add_relations_appends (Data.relationships data) _ u1 Hu1 Hnd)
      as (u3 & Hu3 & Hf3 & Hb3).
    { intros r _. rewrite Hf1, Hb1. auto. }
    destruct (add_notes_frame (Data.notes d1) _ u3 Hu3) as (u4 & Hu4 & Hfr & _).
    exists u4. split; [exact Hu4|].
    replace (State.friends u4) with (State.friends u3) by (rewrite <- Hfr; reflexivity).
    replace (State.blocked u4) with (State.blocked u3) by (rewrite <- Hfr; reflexivity).
    rewrite Hf3, Hb3, Hf1, Hb1. auto. }
  destruct H as (u' & Hu' & Hf & Hb).
  exists u'. split; [exact Hu'|]. split; [exact Hf|]. split; [exact Hb|].
  intros k Hk.
  destruct (Collection.has k (State.blocked u')) eqn:Hkb; [|reflexivity].
  exfalso.
  apply has_keys in Hk. apply has_keys in Hkb.
  unfold Collection.keys in Hk, Hkb. rewrite Hf in Hk. rewrite Hb in Hkb.
  rewrite map_map in Hk, Hkb. cbn [fst] in Hk, Hkb.
  apply in_map_iff in Hk. destruct Hk as (r1 & Hid1 & Hin1).
  apply in_map_iff in Hkb. destruct Hkb as (r2 & Hid2 & Hin2).
  apply filter_In in Hin1. destruct Hin1 as (Hin1 & Ht1).
  apply filter_In in Hin2. destruct Hin2 as (Hin2 & Ht2).
  assert (r1 = r2)
    by (apply (NoDup_map_injective Ready.rel_id _ Hnd); auto; congruence).
  subst r2. apply Z.eqb_eq in Ht1. apply Z.eqb_eq in Ht2. lia.
Qed.

Lemma ready_relationships_in_order_witness :
  exists u',
    State.user (Ready.client_of
                  (Ready.handler Sample.alice_client Sample.packet Sample.shard0))
    = Some u' /\
    State.friends u' = [("A", State.ref_user "A")] /\
    State.blocked u' = [("B", State.ref_user "B")].
Proof.
  destruct (ready_relationships_in_order Sample.plain Sample.alice_client
              Sample.packet Sample.shard0) as (u' & Hu & Hf & Hb & _).
  - repeat constructor; simpl; intuition discriminate.
  - exists u'. split; [exact Hu|]. split; [exact Hf | exact Hb].
Defined.

(** [alice] gets a second READY packet. *)
Lemma ready_reentry_patches_in_place_witness :
  State.constructed
    (Ready.client_of (Ready.handler Sample.alice_client Sample.packet Sample.shard0))
  = State.constructed Sample.alice_client.
Proof.
  apply (ready_reentry_patches_in_place Sample.plain Sample.alice_client
           Sample.packet Sample.shard0 Sample.alice).
  reflexivity.
Defined.

Lemma ready_first_builds_once_witness :
  State.constructed
    (Ready.client_of (Ready.handler Sample.fresh_client Sample.packet Sample.shard0))
  = 1.
Proof.
  apply (ready_first_builds_once Sample.plain Sample.fresh_client
           Sample.packet Sample.shard0).
  reflexivity.
Defined.

(** ** [setActivity] *)

(** [Object.assign]: a key of the source wins over the target. *)
Lemma get_assign (target source : JSObject) (k : string) :
  Collection.get k (ClientUserMethods.assign target source)
  = match find (fun e => fst e =? k) (rev source) with
    | Some e => Some (snd e)
    | None => Collection.get k target
    end.
Proof.
  unfold ClientUserMethods.assign.
  apply (get_fold_set (fun e : string * JS.value => fst e) (fun e => snd e)).
Qed.

(** In an object (no key twice) the last entry of a key is the only one. *)
Lemma find_rev_get {V : Type} (m : Collection.t V) (k : string) :
  NoDup (Collection.keys m) ->
  option_map snd (find (fun e => fst e =? k) (rev m)) = Collection.get k m.
Proof.
  induction m as [|[k0 v0] r IH]; simpl; intros Hnd; [reflexivity|].
  inversion Hnd as [|? ? Hnotin Hnd']; subst.
  rewrite find_app_first. specialize (IH Hnd').
  destruct (find (fun e => fst e =? k) (rev r)) as [e|] eqn:F; simpl in *.
  - destruct (k0 =? k) eqn:E; [|exact IH].
    apply String.eqb_eq in E. subst k0. exfalso. apply Hnotin.
    apply has_keys. unfold Collection.has. now rewrite <- IH.
  - destruct (k0 =? k); [reflexivity | exact IH].
Qed.

Lemma get_assign_object (target source : JSObject) (k : string) :
  NoDup (Collection.keys source) ->
  Collection.get k (ClientUserMethods.assign target source)
  = match Collection.get k source with
    | Some v => Some v
    | None => Collection.get k target
    end.
Proof.
  intros Hnd. rewrite get_assign, <- (find_rev_get source k Hnd).
  destruct (find _ (rev source)); reflexivity.
Qed.

(** X23.  What [setActivity] hands to [client.presence.set], for an options
    object and a name object without repeated keys:
    - a falsy name ([undefined], [null], the empty string) clears the
      activity and passes the [shardID] of the options on;
    - a name that is a truthy primitive gives the options with [name] set
      to it (an option called [name] is overridden), and the [shardID] of
      the options;
    - a name that is an object gives the options overridden key by key by
      that object, and the [shardID] of the merged object. *)
Theorem setActivity_presence :
  forall (R : Type) (presence_set : ClientUserMethods.PresenceData -> R)
         (options : option JSObject) (o : JSObject) (v : JS.value),
    let opts := match options with Some x => x | None => Collection.empty end in
    NoDup (Collection.keys opts) ->
    NoDup (Collection.keys o) ->
    (JS.truthy v = false ->
     ClientUserMethods.setActivity presence_set (ClientUserMethods.NameValue v) options
     = presence_set
         {| ClientUserMethods.status := None; ClientUserMethods.afk := None;
            ClientUserMethods.activity := Some JS.RNull;
            ClientUserMethods.shardID := Some (Collection.get_value "shardID" opts) |}) /\
    (JS.truthy v = true ->
     exists act,
       ClientUserMethods.setActivity presence_set (ClientUserMethods.NameValue v) options
       = presence_set
           {| ClientUserMethods.status := None; ClientUserMethods.afk := None;
              ClientUserMethods.activity := Some (JS.RObj act);
              ClientUserMethods.shardID := Some (Collection.get_value "shardID" opts) |} /\
       Collection.get "name" act = Some v /\
       (forall k, k <> "name" -> Collection.get k act = Collection.get k opts)) /\
    (exists act,
       ClientUserMethods.setActivity presence_set (ClientUserMethods.NameObject o) options
       = presence_set
           {| ClientUserMethods.status := None; ClientUserMethods.afk := None;
              ClientUserMethods.activity := Some (JS.RObj act);
              ClientUserMethods.shardID := Some (Collection.get_value "shardID" act) |} /\
       (forall k, Collection.get k act
                  = match Collection.get k o with
                    | Some x => Some x
                    | None => Collection.get k opts
                    end)).
Proof.
  intros R presence_set options o v. cbv zeta.
  set (opts := match options with Some x => x | None => Collection.empty end).
  intros Hopts Ho.
  assert (Hbase : forall k,
             Collection.get k (ClientUserMethods.assign Collection.empty opts)
             = Collection.get k opts).
  { intros k. rewrite (get_assign_object _ _ k Hopts).
    destruct (Collection.get k opts); reflexivity. }
  unfold ClientUserMethods.setActivity, ClientUserMethods.setPresence. fold opts.
  split; [|split].
  - intros Hv. cbn [negb]. now rewrite Hv.
  - intros Hv. rewrite Hv. cbn [negb].
    eexists. split; [|split].
    + f_equal. f_equal. f_equal.
      unfold Collection.get_value, ClientUserMethods.assign at 1. cbn [fold_left fst snd].
      rewrite get_set_neq by discriminate. now rewrite Hbase.
    + unfold ClientUserMethods.assign at 1. cbn [fold_left fst snd]. apply get_set_eq.
    + intros k Hk. unfold ClientUserMethods.assign at 1. cbn [fold_left fst snd].
      rewrite get_set_neq by congruence. apply Hbase.
  - eexists. split; [reflexivity|].
    intros k. rewrite (get_assign_object _ _ k Ho), Hbase. reflexivity.
Qed.

(** [setActivity('discord.js', { type: 'WATCHING', name: 'x', shardID: 2 })]. *)
Lemma setActivity_presence_witness :
  ClientUserMethods.setActivity (fun d => d) (ClientUserMethods.NameValue JS.VUndefined)
    (Some [("type", JS.VStr "WATCHING"); ("name", JS.VStr "x"); ("shardID", JS.VNum 2)])
  = {| ClientUserMethods.status := None; ClientUserMethods.afk := None;
       ClientUserMethods.activity := Some JS.RNull;
       ClientUserMethods.shardID := Some (JS.VNum 2) |}.
Proof.
  apply (setActivity_presence _ (fun d => d)
           (Some [("type", JS.VStr "WATCHING"); ("name", JS.VStr "x"); ("shardID", JS.VNum 2)])
           [("name", JS.VStr "y")] JS.VUndefined).
  - repeat constructor; simpl; intuition discriminate.
  - repeat constructor; simpl; intuition discriminate.
  - reflexivity.
Defined.
